(** * Car efficiency and value score: the scoring engine

    A shallow embedding of the scoring model (scoring.js) and of the two
    helpers of utils.js it relies on (clamp / normalize / parseNumber),
    followed by the properties of the engine.

    Conventions of the embedding.

    - A JavaScript Number is an exact rational ([Q]); arithmetic is exact.
      The decimal literals of the source ([0.015], [2.5], ...) denote the
      corresponding fractions.  Rounding of IEEE doubles, overflow to
      Infinity and underflow are outside the model.
    - A record field of the specification is [None] when it is [null] or
      [undefined], and [Some v] otherwise.  The numeric fields carry numbers,
      the enum-like fields strings, [esc] and [isofix] booleans.  [NaN] is
      falsy, and every numeric field is read behind a truthiness test, so a
      [NaN] field behaves as an absent one.
    - An object literal used as a lookup table is an association list over
      its own keys.
    - [validateSpec] works on an untyped attribute bag, so it is embedded
      over dynamically typed values ([jsval]), with the [TypeError] a method
      call on a non-string raises made explicit.  A number is printed by
      [toString] with its exact decimal expansion. *)

From Stdlib Require Import QArith Qround Qminmax Qabs Lqa ZArith.
From Stdlib Require Import String Ascii List Bool DecimalString.
From Stdlib Require Import Lia DecimalPos DecimalFacts.
Import ListNotations.

Open Scope string_scope.
Open Scope Q_scope.

(* ================================================================= *)
(** ** JavaScript primitives used by the source *)

(** [a > b], [a >= b], [a < b] on numbers. *)
Definition Qgtb (a b : Q) : bool := negb (Qle_bool a b).
Definition Qgeb (a b : Q) : bool := Qle_bool b a.
Definition Qltb (a b : Q) : bool := negb (Qle_bool b a).

Notation "a >? b" := (Qgtb a b) (at level 70, no associativity) : Q_scope.
Notation "a >=? b" := (Qgeb a b) (at level 70, no associativity) : Q_scope.
Notation "a <? b" := (Qltb a b) (at level 70, no associativity) : Q_scope.

(** Truthiness of a number: every number but zero. *)
Definition isTruthy (x : Q) : bool := negb (Qeq_bool x 0).

(** [if (field)] on a nullable numeric field: the value when it is truthy. *)
Definition truthy (x : option Q) : option Q :=
  match x with
  | Some v => if isTruthy v then Some v else None
  | None => None
  end.

(** [if (field)] on a nullable boolean field. *)
Definition truthyBool (x : option bool) : bool :=
  match x with
  | Some b => b
  | None => false
  end.

(** [x || d] on a nullable number. *)
Definition orNum (x : option Q) (d : Q) : Q :=
  match truthy x with
  | Some v => v
  | None => d
  end.

(** [x || d] on a nullable string: the empty string is falsy. *)
Definition orStr (x : option string) (d : string) : string :=
  match x with
  | Some EmptyString => d
  | Some s => s
  | None => d
  end.

(** [x === 'lit'] on a nullable string. *)
Definition strIs (x : option string) (lit : string) : bool :=
  match x with
  | Some s => String.eqb s lit
  | None => false
  end.

(** [String.prototype.toLowerCase], on ASCII. *)
Definition lowerAscii (c : ascii) : ascii :=
  let n := nat_of_ascii c in
  if (Nat.leb 65 n && Nat.leb n 90)%bool then ascii_of_nat (n + 32) else c.

Fixpoint toLowerCase (s : string) : string :=
  match s with
  | EmptyString => EmptyString
  | String c r => String (lowerAscii c) (toLowerCase r)
  end.

(** [table[key]]: the own property [key] of an object literal. *)
Fixpoint lookup {A : Type} (key : string) (table : list (string * A)) : option A :=
  match table with
  | [] => None
  | (k, v) :: rest => if String.eqb k key then Some v else lookup key rest
  end.

(** [table[key]] when the key itself may be [null] or [undefined]. *)
Definition lookupOpt {A : Type} (key : option string) (table : list (string * A)) : option A :=
  match key with
  | Some k => lookup k table
  | None => None
  end.

(** [Math.round]: the nearest integer, halves towards plus infinity. *)
Definition Math_round (x : Q) : Z := Qfloor (x + 0.5).

(* ================================================================= *)
(** ** utils.js *)

Definition clamp (value min max : Q) : Q := Qmin (Qmax value min) max.

Definition normalize (value min max : Q) : Q :=
  if Qeq_bool max min then 0
  else clamp ((value - min) / (max - min)) 0 1.

Module Weights.
Record t := mk {
  efficiency : Q;
  safety : Q;
  valueForMoney : Q;
  performancePerEfficiency : Q
}.
End Weights.

Module FuelPrices.
Record t := mk {
  petrol : Q;
  diesel : Q;
  cng : Q;
  electricity : Q
}.
End FuelPrices.

(** The weights and prices of [getDefaultSettings]. *)
Definition defaultWeights : Weights.t := Weights.mk 35 30 25 10.
Definition defaultFuelPrices : FuelPrices.t := FuelPrices.mk 110 95 80 9.

(* ================================================================= *)
(** ** scoring.js: data *)

(** The specification record read by the scoring functions. *)
Record Spec := mkSpec {
  fuelType : option string;
  mileage : option Q;
  range : option Q;
  batteryCapacity : option Q;
  displacement : option Q;
  cylinders : option Q;
  power : option Q;
  torque : option Q;
  transmissionType : option string;
  gears : option Q;
  kerbWeight : option Q;
  length : option Q;
  width : option Q;
  height : option Q;
  groundClearance : option Q;
  bodyType : option string;
  ncapStars : option Q;
  airbags : option Q;
  esc : option bool;
  isofix : option bool;
  price : option Q
}.

(** The record with every field absent. *)
Definition emptySpec : Spec :=
  mkSpec None None None None None None None None None None None
         None None None None None None None None None None.

(** [NORMALIZATION_RANGES]: the two entries the engine reads. *)
Definition price_lakh_min : Q := 6.
Definition price_lakh_max : Q := 50.
Definition power_to_weight_min : Q := 50.
Definition power_to_weight_max : Q := 120.

(** [REAL_WORLD_FACTORS], with its entries read by name
    ([REAL_WORLD_FACTORS.ice], ...). *)
Definition REAL_WORLD_FACTORS_ice : Q := 0.8.
Definition REAL_WORLD_FACTORS_hybrid : Q := 0.85.
Definition REAL_WORLD_FACTORS_cng : Q := 0.8.
Definition REAL_WORLD_FACTORS_ev : Q := 0.75.

Definition REAL_WORLD_FACTORS : list (string * Q) :=
  [("ice", REAL_WORLD_FACTORS_ice); ("hybrid", REAL_WORLD_FACTORS_hybrid);
   ("cng", REAL_WORLD_FACTORS_cng); ("ev", REAL_WORLD_FACTORS_ev)].

Definition bodyTypePenalties : list (string * Q) :=
  [("hatchback", 2); ("sedan", 5); ("crossover", 10); ("mpv", 15);
   ("suv", 20); ("coupe", 7); ("convertible", 12)].

Definition transmissionPenalties : list (string * Q) :=
  [("manual", 0); ("amt", 2); ("cvt", -1); ("dct", 3);
   ("automatic", 5); ("hybrid", -3)].

Definition baseEfficiency_petrol : Q := 16.

Definition baseEfficiency : list (string * Q) :=
  [("petrol", baseEfficiency_petrol); ("diesel", 20); ("hybrid", 23);
   ("cng", 25); ("electric", 6.0)].

(* ================================================================= *)
(** ** scoring.js: the efficiency penalty *)

(** [transmissionPenalties[key] || 2]: a looked-up [0] is falsy, so the
    entry of ['manual'] yields the fallback [2] as well. *)
Definition transmissionPenaltyOf (key : string) : Q :=
  orNum (lookup key transmissionPenalties) 2.

Definition bodyTypePenaltyOf (key : string) : Q :=
  orNum (lookup key bodyTypePenalties) 7.

(** The value of the accumulator [totalPenalty] when the function reaches
    its [return]. *)
Definition totalPenalty (spec : Spec) : Q :=
  let totalPenalty := 0 in
  (* 1. displacement *)
  let totalPenalty :=
    match truthy (displacement spec) with
    | Some displacement =>
        if displacement >? 1500 then
          totalPenalty + Qmin ((displacement - 1500) / 100 * 2.5) 25
        else if displacement >? 1200 then
          totalPenalty + (displacement - 1200) / 100 * 1.5
        else if displacement <? 1000 then
          totalPenalty - Qmin ((1000 - displacement) / 100 * 2) 10
        else totalPenalty
    | None => totalPenalty
    end in
  (* 2. weight *)
  let totalPenalty :=
    match truthy (kerbWeight spec) with
    | Some kerbWeight =>
        if kerbWeight >? 1200 then
          totalPenalty + Qmin ((kerbWeight - 1200) / 100 * 4) 30
        else if kerbWeight >? 1000 then
          totalPenalty + (kerbWeight - 1000) / 100 * 2
        else if kerbWeight <? 900 then
          totalPenalty - Qmin ((900 - kerbWeight) / 100 * 3) 12
        else totalPenalty
    | None => totalPenalty
    end in
  (* 3. cylinders *)
  let totalPenalty :=
    match truthy (cylinders spec) with
    | Some cylinders =>
        if cylinders >? 4 then totalPenalty + (cylinders - 4) * 3
        else totalPenalty
    | None => totalPenalty
    end in
  (* 4. body type *)
  let bodyTypeKey := toLowerCase (orStr (bodyType spec) "sedan") in
  let totalPenalty := totalPenalty + bodyTypePenaltyOf bodyTypeKey in
  (* 5. transmission *)
  let transmissionKey := toLowerCase (orStr (transmissionType spec) "manual") in
  let totalPenalty := totalPenalty + transmissionPenaltyOf transmissionKey in
  (* 6. power to weight *)
  let totalPenalty :=
    match truthy (power spec), truthy (kerbWeight spec) with
    | Some power, Some kerbWeight =>
        let powerToWeight := (power * 0.746) / (kerbWeight / 1000) in
        if powerToWeight >? 80 then
          totalPenalty + Qmin ((powerToWeight - 80) / 10 * 2) 12
        else totalPenalty
    | _, _ => totalPenalty
    end in
  (* 7. ground clearance *)
  let totalPenalty :=
    match truthy (groundClearance spec) with
    | Some groundClearance =>
        if groundClearance >? 180 then
          totalPenalty + Qmin ((groundClearance - 180) / 10) 8
        else totalPenalty
    | None => totalPenalty
    end in
  (* 8. gear count *)
  let totalPenalty :=
    match truthy (gears spec) with
    | Some gears =>
        if gears >=? 6 then totalPenalty - Qmin (gears - 5) 3
        else totalPenalty
    | None => totalPenalty
    end in
  totalPenalty.

Definition calculateEfficiencyPenalty (spec : Spec) : Q :=
  Qmax 0 (totalPenalty spec).

(* ================================================================= *)
(** ** scoring.js: real-world efficiency and cost *)

(** The last part of [calculateRealWorldEfficiency]: with no mileage data,
    the estimate from the penalty. *)
Definition penaltyBasedEfficiency (spec : Spec) : Q :=
  let efficiencyPenalty := calculateEfficiencyPenalty spec in
  let baseFuelEfficiency :=
    orNum (lookupOpt (fuelType spec) baseEfficiency) baseEfficiency_petrol in
  let penaltyFactor := Qmax 0.4 (1 - efficiencyPenalty * 0.015) in
  let estimatedEfficiency := baseFuelEfficiency * penaltyFactor in
  let correctionFactor :=
    orNum (lookupOpt (fuelType spec) REAL_WORLD_FACTORS) REAL_WORLD_FACTORS_ice in
  estimatedEfficiency * correctionFactor.

Definition calculateRealWorldEfficiency (spec : Spec) : Q :=
  match truthy (mileage spec) with
  | Some mileage =>
      if (strIs (fuelType spec) "petrol" || strIs (fuelType spec) "diesel")%bool
      then mileage * REAL_WORLD_FACTORS_ice
      else if strIs (fuelType spec) "hybrid" then mileage * REAL_WORLD_FACTORS_hybrid
      else if strIs (fuelType spec) "cng" then mileage * REAL_WORLD_FACTORS_cng
      else mileage * REAL_WORLD_FACTORS_ice
  | None =>
      match strIs (fuelType spec) "electric",
            truthy (range spec), truthy (batteryCapacity spec) with
      | true, Some range, Some batteryCapacity =>
          let realWorldRange := range * REAL_WORLD_FACTORS_ev in
          realWorldRange / batteryCapacity
      | _, _, _ => penaltyBasedEfficiency spec
      end
  end.

Definition calculateCostPerKm (spec : Spec) (fuelPrices : FuelPrices.t) : option Q :=
  let realWorldEff := calculateRealWorldEfficiency spec in
  if negb (isTruthy realWorldEff) then None
  else if strIs (fuelType spec) "petrol" then
    Some (FuelPrices.petrol fuelPrices / realWorldEff)
  else if strIs (fuelType spec) "diesel" then
    Some (FuelPrices.diesel fuelPrices / realWorldEff)
  else if strIs (fuelType spec) "cng" then
    Some (FuelPrices.cng fuelPrices / realWorldEff)
  else if strIs (fuelType spec) "hybrid" then
    Some (FuelPrices.petrol fuelPrices / realWorldEff)
  else if strIs (fuelType spec) "electric" then
    Some (FuelPrices.electricity fuelPrices / realWorldEff)
  else None.

(* ================================================================= *)
(** ** scoring.js: the four sub-scores *)

Record Thresholds := mkThresholds {
  excellentThreshold : Q;
  goodThreshold : Q;
  averageThreshold : Q;
  poorThreshold : Q
}.

(** The [switch (fuelType)] of [calculateEfficiencyScore]. *)
Definition thresholdsFor (fuelType : option string) : Thresholds :=
  if strIs fuelType "petrol" then mkThresholds 20 17 14 11
  else if strIs fuelType "diesel" then mkThresholds 25 22 19 16
  else if strIs fuelType "hybrid" then mkThresholds 28 24 20 17
  else if strIs fuelType "cng" then mkThresholds 30 26 22 18
  else if strIs fuelType "electric" then mkThresholds 8.0 6.5 5.0 3.5
  else mkThresholds 20 17 14 11.

(** The branch taken when [!realWorldEff]: the 0.60 baseline. *)
Definition fallbackEfficiencyScore (spec : Spec) : Q :=
  let efficiencyPenalty := calculateEfficiencyPenalty spec in
  let baseScore := 0.60 in
  let penaltyReduction := Qmin (efficiencyPenalty * 0.02) 0.45 in
  Qmax 0.15 (baseScore - penaltyReduction).

(** The rest of the function: the benchmark against the thresholds. *)
Definition benchmarkEfficiencyScore (spec : Spec) (realWorldEff : Q) : Q :=
  let t := thresholdsFor (fuelType spec) in
  let score :=
    if realWorldEff >=? excellentThreshold t then
      let excessEfficiency := realWorldEff - excellentThreshold t in
      let maxExcess := excellentThreshold t * 0.3 in
      0.75 + Qmin (excessEfficiency / maxExcess) 1.0 * 0.15
    else if realWorldEff >=? goodThreshold t then
      0.55 + (realWorldEff - goodThreshold t)
             / (excellentThreshold t - goodThreshold t) * 0.20
    else if realWorldEff >=? averageThreshold t then
      0.35 + (realWorldEff - averageThreshold t)
             / (goodThreshold t - averageThreshold t) * 0.20
    else if realWorldEff >=? poorThreshold t then
      0.20 + (realWorldEff - poorThreshold t)
             / (averageThreshold t - poorThreshold t) * 0.15
    else
      Qmax 0.05 (0.20 * (realWorldEff / poorThreshold t)) in
  let penalty := calculateEfficiencyPenalty spec in
  let penaltyAdjustment := Qmin (penalty * 0.012) 0.25 in
  let score := Qmax 0.05 (score - penaltyAdjustment) in
  Qmin 1.0 score.

Definition calculateEfficiencyScore (spec : Spec) : Q :=
  let realWorldEff := calculateRealWorldEfficiency spec in
  if negb (isTruthy realWorldEff) then fallbackEfficiencyScore spec
  else benchmarkEfficiencyScore spec realWorldEff.

(** The score inferred from the safety features, before the cap. *)
Definition featureSafetyScore (spec : Spec) : Q :=
  let score := 0 in
  let score :=
    match truthy (airbags spec) with
    | Some airbags =>
        if airbags >=? 6 then score + 0.4
        else if airbags >=? 2 then score + 0.2
        else score
    | None => score
    end in
  let score := if truthyBool (esc spec) then score + 0.2 else score in
  let score := if truthyBool (isofix spec) then score + 0.2 else score in
  score.

Definition calculateSafetyScore (spec : Spec) : Q :=
  match truthy (ncapStars spec) with
  | Some ncapStars =>
      if ncapStars >? 0 then Qmin (ncapStars / 5) 1
      else Qmin (featureSafetyScore spec) 0.6
  | None => Qmin (featureSafetyScore spec) 0.6
  end.

Definition calculateValueScore (spec : Spec) (efficiencyScore safetyScore : Q) : Q :=
  match truthy (price spec) with
  | None => 0
  | Some price =>
      let priceScore := 1 - normalize price price_lakh_min price_lakh_max in
      let featuresScore := (efficiencyScore + safetyScore) / 2 in
      (featuresScore * 0.6) + (priceScore * 0.4)
  end.

Definition calculatePerformancePerEfficiencyScore (spec : Spec) (efficiencyScore : Q) : Q :=
  match truthy (power spec), truthy (kerbWeight spec) with
  | Some power, Some kerbWeight =>
      let powerToWeight := power / (kerbWeight / 1000) in
      let powerScore :=
        normalize powerToWeight power_to_weight_min power_to_weight_max in
      (powerScore * 0.7) + (efficiencyScore * 0.3)
  | _, _ => efficiencyScore
  end.

(* ================================================================= *)
(** ** scoring.js: the composite score *)

Module Breakdown.
Record t := mk {
  efficiency : Z;
  safety : Z;
  valueForMoney : Z;
  performancePerEfficiency : Z
}.
End Breakdown.

Module Metrics.
Record t := mk {
  costPerKm : option Q;
  powerToWeight : option Q;
  realWorldEfficiency : Q
}.
End Metrics.

Record ScoreResult := mkScoreResult {
  composite : Z;
  breakdown : Breakdown.t;
  metrics : Metrics.t
}.

(** The weighted sum of the four sub-scores, before the division by 100. *)
Definition weightedSum (weights : Weights.t)
    (efficiencyScore safetyScore valueScore perfEffScore : Q) : Q :=
  (efficiencyScore * Weights.efficiency weights) +
  (safetyScore * Weights.safety weights) +
  (valueScore * Weights.valueForMoney weights) +
  (perfEffScore * Weights.performancePerEfficiency weights).

Definition calculateCompositeScore (spec : Spec) (weights : Weights.t)
    (fuelPrices : FuelPrices.t) : ScoreResult :=
  let efficiencyScore := calculateEfficiencyScore spec in
  let safetyScore := calculateSafetyScore spec in
  let valueScore := calculateValueScore spec efficiencyScore safetyScore in
  let perfEffScore := calculatePerformancePerEfficiencyScore spec efficiencyScore in
  let composite :=
    weightedSum weights efficiencyScore safetyScore valueScore perfEffScore / 100 in
  let costPerKm := calculateCostPerKm spec fuelPrices in
  let powerToWeight :=
    match truthy (power spec), truthy (kerbWeight spec) with
    | Some power, Some kerbWeight => Some (power / (kerbWeight / 1000))
    | _, _ => None
    end in
  mkScoreResult
    (Math_round (composite * 100))
    (Breakdown.mk
       (Math_round (efficiencyScore * 100))
       (Math_round (safetyScore * 100))
       (Math_round (valueScore * 100))
       (Math_round (perfEffScore * 100)))
    (Metrics.mk
       (match truthy costPerKm with
        | Some costPerKm => Some (inject_Z (Math_round (costPerKm * 100)) / 100)
        | None => None
        end)
       (match truthy powerToWeight with
        | Some powerToWeight => Some (inject_Z (Math_round (powerToWeight * 10)) / 10)
        | None => None
        end)
       (calculateRealWorldEfficiency spec)).

(* ================================================================= *)
(** ** Dynamically typed values: the raw attribute bag *)

(** The primitive values a raw attribute bag may hold. *)
Inductive jsval :=
| JUndefined
| JNull
| JBool (b : bool)
| JNaN
| JNum (q : Q)
| JStr (s : string).

(** A call either returns or raises a [TypeError]. *)
Inductive result (A : Type) :=
| Ok (a : A)
| TypeError.
Arguments Ok {A} a.
Arguments TypeError {A}.

Definition bind {A B : Type} (r : result A) (f : A -> result B) : result B :=
  match r with
  | Ok a => f a
  | TypeError => TypeError
  end.

(** An object: a property that is not set reads as [undefined]. *)
Definition bag := string -> jsval.

Definition emptyBag : bag := fun _ => JUndefined.

(** [o[key] = v]. *)
Definition setField (o : bag) (key : string) (v : jsval) : bag :=
  fun k => if String.eqb k key then v else o k.

(** [ToBoolean]. *)
Definition toBoolean (v : jsval) : bool :=
  match v with
  | JUndefined | JNull | JNaN => false
  | JBool b => b
  | JNum q => isTruthy q
  | JStr EmptyString => false
  | JStr _ => true
  end.

Definition isNullish (v : jsval) : bool :=
  match v with
  | JUndefined | JNull => true
  | _ => false
  end.

(** *** [Number.prototype.toString] on a number with a finite decimal
    expansion: the digits [s], their count [k] and the position [n] of the
    decimal point, laid out as ECMAScript prescribes. *)

Definition isInteger (q : Q) : bool := Qeq_bool (inject_Z (Qfloor q)) q.

(** The least [m] (up to [fuel]) with [q * 10^m] an integer. *)
Fixpoint fractionDigits (fuel : nat) (q : Q) : nat :=
  match fuel with
  | O => O
  | S fuel' => if isInteger q then O else S (fractionDigits fuel' (Qred (q * 10)))
  end.

Fixpoint trailingZeros (fuel : nat) (n : Z) : nat :=
  match fuel with
  | O => O
  | S fuel' =>
      if (n mod 10 =? 0)%Z then S (trailingZeros fuel' (n / 10)) else O
  end.

Definition digitsOf (n : Z) : string := NilZero.string_of_int (Z.to_int n).

Definition zeros (n : nat) : string := string_of_list_ascii (repeat "0"%char n).

Definition pow10 (n : nat) : Z := (10 ^ Z.of_nat n)%Z.

Definition positiveToString (x : Q) : string :=
  let m := fractionDigits 1100 x in
  let scaled := Qfloor (x * inject_Z (pow10 m)) in
  let t := match m with
           | O => trailingZeros (String.length (digitsOf scaled)) scaled
           | S _ => O
           end in
  let digits := digitsOf (scaled / pow10 t) in
  let k := String.length digits in
  let n := (Z.of_nat k + Z.of_nat t - Z.of_nat m)%Z in
  if ((Z.of_nat k <=? n) && (n <=? 21))%Z%bool then
    digits ++ zeros (Z.to_nat n - k)
  else if ((0 <? n) && (n <=? 21))%Z%bool then
    substring 0 (Z.to_nat n) digits ++ "." ++ substring (Z.to_nat n) (k - Z.to_nat n) digits
  else if ((-6 <? n) && (n <=? 0))%Z%bool then
    "0." ++ zeros (Z.to_nat (- n)) ++ digits
  else
    let e := (n - 1)%Z in
    let exponent := (if (e <? 0)%Z then "e-" else "e+") ++ digitsOf (Z.abs e) in
    match k with
    | 1%nat => digits ++ exponent
    | _ => substring 0 1 digits ++ "." ++ substring 1 (k - 1) digits ++ exponent
    end.

Definition numberToString (x : Q) : string :=
  if Qeq_bool x 0 then "0"
  else if x <? 0 then "-" ++ positiveToString (- x)
  else positiveToString x.

(** [text.toString()]: a method call, so a [TypeError] on [null] and
    [undefined]. *)
Definition toString (v : jsval) : result string :=
  match v with
  | JUndefined | JNull => TypeError
  | JBool true => Ok "true"
  | JBool false => Ok "false"
  | JNaN => Ok "NaN"
  | JNum q => Ok (numberToString q)
  | JStr s => Ok s
  end.

(** *** [parseFloat] *)

Definition isDigit (c : ascii) : bool :=
  let n := nat_of_ascii c in (Nat.leb 48 n && Nat.leb n 57)%bool.

(** The longest prefix of digits, and what follows it. *)
Fixpoint takeDigits (s : string) : string * string :=
  match s with
  | String c r =>
      if isDigit c then let (d, rest) := takeDigits r in (String c d, rest)
      else (EmptyString, s)
  | EmptyString => (EmptyString, EmptyString)
  end.

Fixpoint digitsValueFrom (acc : Z) (d : string) : Z :=
  match d with
  | String c r => digitsValueFrom (acc * 10 + (Z.of_nat (nat_of_ascii c) - 48))%Z r
  | EmptyString => acc
  end.

Definition digitsValue (d : string) : Z := digitsValueFrom 0 d.

(** [parseFloat] on a text without white space, exponent or ["Infinity"]
    (the cleaning of [parseNumber] leaves digits, ['.'] and ['-'] only): the
    value of the longest prefix that is a decimal literal, [None] for [NaN]. *)
Definition parseFloat (s : string) : option Q :=
  let (negative, s1) :=
    match s with
    | String "-" r => (true, r)
    | String "+" r => (false, r)
    | _ => (false, s)
    end in
  let (intPart, s2) := takeDigits s1 in
  let fracPart :=
    match s2 with
    | String "." r => fst (takeDigits r)
    | _ => EmptyString
    end in
  match intPart, fracPart with
  | EmptyString, EmptyString => None
  | _, _ =>
      let v := inject_Z (digitsValue intPart)
               + inject_Z (digitsValue fracPart)
                 / inject_Z (pow10 (String.length fracPart)) in
      Some (Qred (if negative then - v else v))
  end.

(** [s.replace(/[^\d.-]/g, '')]. *)
Fixpoint keepNumeric (s : string) : string :=
  match s with
  | String c r =>
      if (isDigit c || Ascii.eqb c "." || Ascii.eqb c "-")%bool
      then String c (keepNumeric r)
      else keepNumeric r
  | EmptyString => EmptyString
  end.

(** [s.replace(/,/g, '')]. *)
Fixpoint dropCommas (s : string) : string :=
  match s with
  | String c r =>
      if Ascii.eqb c "," then dropCommas r else String c (dropCommas r)
  | EmptyString => EmptyString
  end.

(** *** utils.js: [parseNumber] *)

Definition parseNumber (text : jsval) : result jsval :=
  if negb (toBoolean text) then Ok JNull
  else
    bind (toString text) (fun str =>
    let cleaned := dropCommas (keepNumeric str) in
    match parseFloat cleaned with
    | None => Ok JNull
    | Some num => Ok (JNum num)
    end).

(* ================================================================= *)
(** ** scoring.js: [validateSpec] *)

Definition numericFields : list string :=
  ["mileage"; "range"; "batteryCapacity"; "power"; "kerbWeight"; "price";
   "ncapStars"; "airbags"].

Definition booleanFields : list string := ["esc"; "isofix"].

(** [fields.forEach(f)] with [f] updating [spec]. *)
Fixpoint forEach (f : bag -> string -> result bag) (fields : list string)
    (spec : bag) : result bag :=
  match fields with
  | [] => Ok spec
  | field :: rest => bind (f spec field) (forEach f rest)
  end.

Definition coerceNumber (spec : bag) (field : string) : result bag :=
  if negb (isNullish (spec field)) then
    bind (parseNumber (spec field)) (fun num => Ok (setField spec field num))
  else Ok spec.

Definition coerceBoolean (spec : bag) (field : string) : result bag :=
  if negb (isNullish (spec field)) then
    Ok (setField spec field (JBool (toBoolean (spec field))))
  else Ok spec.

(** [spec.fuelType = spec.fuelType.toLowerCase()]: only a string has the
    method. *)
Definition lowerFuelType (spec : bag) : result bag :=
  if toBoolean (spec "fuelType") then
    match spec "fuelType" with
    | JStr s => Ok (setField spec "fuelType" (JStr (toLowerCase s)))
    | _ => TypeError
    end
  else Ok spec.

Definition validateSpec (rawSpec : bag) : result bag :=
  let spec := rawSpec in
  bind (forEach coerceNumber numericFields spec) (fun spec =>
  bind (forEach coerceBoolean booleanFields spec) (fun spec =>
  lowerFuelType spec)).

(* ================================================================= *)
(** ** Concrete records used below *)

(** The scenario of the specification: a 1.2 litre petrol hatchback. *)
Definition swiftSpec : Spec :=
  mkSpec (Some "petrol") None None None (Some 1197) (Some 4) None None
         (Some "manual") (Some 5) (Some 950) None None None None
         (Some "hatchback") None None None None None.

(** A small, light hatchback with a six-speed manual gearbox: three bonus
    factors at once. *)
Definition lightHatchback : Spec :=
  mkSpec (Some "petrol") None None None (Some 800) (Some 3) None None
         (Some "manual") (Some 6) (Some 700) None None None None
         (Some "hatchback") None None None None None.

(** [{ ...spec, ncapStars: stars }]: the record with another star rating
    and every other field kept. *)
Definition withNcapStars (spec : Spec) (stars : option Q) : Spec :=
  mkSpec (fuelType spec) (mileage spec) (range spec) (batteryCapacity spec)
         (displacement spec) (cylinders spec) (power spec) (torque spec)
         (transmissionType spec) (gears spec) (kerbWeight spec) (length spec)
         (width spec) (height spec) (groundClearance spec) (bodyType spec)
         stars (airbags spec) (esc spec) (isofix spec) (price spec).

(** A car with six airbags, ESC and ISOFIX and no crash-test rating. *)
Definition wellEquipped : Spec :=
  mkSpec (Some "petrol") None None None None None None None None None None
         None None None None None None (Some 6) (Some true) (Some true) None.

(** A petrol hybrid with a measured mileage. *)
Definition hybridSpec : Spec :=
  mkSpec (Some "hybrid") (Some 25) None None None None None None None None None
         None None None None None None None None None None.

(** An electric car known by its range and battery only. *)
Definition evSpec (r b : Q) : Spec :=
  mkSpec (Some "electric") None (Some r) (Some b) None None None None
         None None None None None None None None None None None None None.

(** The numeric fields of the data model that [validateSpec] does not
    coerce. *)
Definition uncoercedNumericFields : list string :=
  ["displacement"; "cylinders"; "torque"; "gears"; "length"; "width";
   "height"; "groundClearance"].

(** A field value that is absent ([undefined] or [null]) or a number that
    is not negative. *)
Definition absentOrNonNegative (v : jsval) : Prop :=
  match v with
  | JUndefined | JNull => True
  | JNum q => 0 <= q
  | _ => False
  end.

(** A field value that is absent or a number (not [NaN], not a string, not
    a boolean). *)
Definition absentOrNumber (v : jsval) : Prop :=
  match v with
  | JUndefined | JNull | JNum _ => True
  | _ => False
  end.

(** A bag whose mileage is the text ["-5"], and one whose displacement,
    a field [validateSpec] does not coerce, is [NaN]. *)
Definition negativeMileageBag : bag := setField emptyBag "mileage" (JStr "-5").
Definition nanDisplacementBag : bag := setField emptyBag "displacement" JNaN.

(** A bag as the extractors build it. *)
Definition extractedBag : bag :=
  setField (setField (setField (setField emptyBag
    "fuelType" (JStr "Petrol")) "mileage" (JStr "18.5 kmpl"))
    "price" (JNum 7.5)) "esc" (JStr "yes").

(** The fuel types [calculateCostPerKm] has a price for. *)
Definition pricedFuels : list string :=
  ["petrol"; "diesel"; "cng"; "hybrid"; "electric"].

(** The price table read as the specification words it: an object with
    exactly the entries petrol, diesel, cng and electricity, indexed by the
    fuel type of the record. *)
Definition fuelPriceTable (fuelPrices : FuelPrices.t) : list (string * Q) :=
  [("petrol", FuelPrices.petrol fuelPrices); ("diesel", FuelPrices.diesel fuelPrices);
   ("cng", FuelPrices.cng fuelPrices); ("electricity", FuelPrices.electricity fuelPrices)].

(** The cost per distance as the specification words it:
    [fuelPrice[fuelType] / realWorldEfficiency], null when the efficiency
    is undeterminable or the fuel type has no configured price. *)
Definition costPerDistance_spec (spec : Spec) (fuelPrices : FuelPrices.t) : option Q :=
  let realWorldEff := calculateRealWorldEfficiency spec in
  match lookupOpt (fuelType spec) (fuelPriceTable fuelPrices) with
  | Some fuelPrice =>
      if isTruthy realWorldEff then Some (fuelPrice / realWorldEff) else None
  | None => None
  end.





(* ================================================================= *)
(** ** Further definitions: record updates and the threshold score *)

(** [{ ...spec, mileage: m }], [{ ...spec, price: p }] and
    [{ ...spec, power: p }]. *)
Definition withMileage (spec : Spec) (m : option Q) : Spec :=
  mkSpec (fuelType spec) m (range spec) (batteryCapacity spec)
         (displacement spec) (cylinders spec) (power spec) (torque spec)
         (transmissionType spec) (gears spec) (kerbWeight spec) (length spec)
         (width spec) (height spec) (groundClearance spec) (bodyType spec)
         (ncapStars spec) (airbags spec) (esc spec) (isofix spec) (price spec).

Definition withPrice (spec : Spec) (p : option Q) : Spec :=
  mkSpec (fuelType spec) (mileage spec) (range spec) (batteryCapacity spec)
         (displacement spec) (cylinders spec) (power spec) (torque spec)
         (transmissionType spec) (gears spec) (kerbWeight spec) (length spec)
         (width spec) (height spec) (groundClearance spec) (bodyType spec)
         (ncapStars spec) (airbags spec) (esc spec) (isofix spec) p.

Definition withPower (spec : Spec) (p : option Q) : Spec :=
  mkSpec (fuelType spec) (mileage spec) (range spec) (batteryCapacity spec)
         (displacement spec) (cylinders spec) p (torque spec)
         (transmissionType spec) (gears spec) (kerbWeight spec) (length spec)
         (width spec) (height spec) (groundClearance spec) (bodyType spec)
         (ncapStars spec) (airbags spec) (esc spec) (isofix spec) (price spec).

(** The piecewise-linear score of [calculateEfficiencyScore] against the
    four thresholds, before the penalty adjustment. *)
Definition thresholdScore (t : Thresholds) (realWorldEff : Q) : Q :=
  if realWorldEff >=? excellentThreshold t then
    let excessEfficiency := realWorldEff - excellentThreshold t in
    let maxExcess := excellentThreshold t * 0.3 in
    0.75 + Qmin (excessEfficiency / maxExcess) 1.0 * 0.15
  else if realWorldEff >=? goodThreshold t then
    0.55 + (realWorldEff - goodThreshold t)
           / (excellentThreshold t - goodThreshold t) * 0.20
  else if realWorldEff >=? averageThreshold t then
    0.35 + (realWorldEff - averageThreshold t)
           / (goodThreshold t - averageThreshold t) * 0.20
  else if realWorldEff >=? poorThreshold t then
    0.20 + (realWorldEff - poorThreshold t)
           / (averageThreshold t - poorThreshold t) * 0.15
  else
    Qmax 0.05 (0.20 * (realWorldEff / poorThreshold t)).

(** The correction factor applied to a measured mileage. *)
Definition mileageFactor (fuelType : option string) : Q :=
  if strIs fuelType "hybrid" then REAL_WORLD_FACTORS_hybrid
  else REAL_WORLD_FACTORS_ice.


(* ================================================================= *)
(** ** popup.js: the settings form *)


(* ================================================================= *)
(** ** utils.js and the generic extractor: keyword tests on text *)

(** [text.includes(keyword)]. *)
Fixpoint includes (text keyword : string) : bool :=
  if String.prefix keyword text then true
  else match text with
       | EmptyString => false
       | String _ rest => includes rest keyword
       end.

(** [keywords.some(keyword => text.includes(keyword))]. *)
Definition includesSome (text : string) (keywords : list string) : bool :=
  existsb (includes text) keywords.

(** utils.js: [guessFuelType].  A text that is [null], [undefined] or empty
    is falsy. *)
Definition guessFuelType (text : option string) : string :=
  match text with
  | None | Some EmptyString => "petrol"
  | Some text =>
      let lowerText := toLowerCase text in
      if (includes lowerText "electric" || includes lowerText "ev"
          || includes lowerText "battery")%bool then "electric"
      else if includes lowerText "hybrid" then "hybrid"
      else if (includes lowerText "cng"
               || includes lowerText "compressed natural gas")%bool then "cng"
      else if includes lowerText "diesel" then "diesel"
      else "petrol"
  end.

(** utils.js: [truncateText]. *)
Definition truncateText (text : string) (maxLength : nat) : string :=
  match text with
  | EmptyString => text
  | _ =>
      if Nat.leb (String.length text) maxLength then text
      else substring 0 maxLength text ++ "..."
  end.

(** The generic extractor: [extractTransmissionType]. *)
Definition extractTransmissionType (text : string) : string :=
  let lowerText := toLowerCase text in
  if includes lowerText "cvt" then "cvt"
  else if includes lowerText "amt" then "amt"
  else if (includes lowerText "dct" || includes lowerText "dual clutch")%bool then "dct"
  else if includes lowerText "automatic" then "automatic"
  else if includes lowerText "manual" then "manual"
  else if includes lowerText "hybrid" then "hybrid"
  else "manual".

(** The generic extractor: [extractBodyType], with [window.location.href]
    and [document.title] as arguments. *)
Definition extractBodyType (href title text : string) : string :=
  let lowerText := toLowerCase text in
  if includes lowerText "hatchback" then "hatchback"
  else if includes lowerText "sedan" then "sedan"
  else if includes lowerText "suv" then "suv"
  else if (includes lowerText "mpv" || includes lowerText "muv")%bool then "mpv"
  else if includes lowerText "crossover" then "crossover"
  else if includes lowerText "coupe" then "coupe"
  else if includes lowerText "convertible" then "convertible"
  else
    let url := toLowerCase href in
    let title := toLowerCase title in
    if (includes url "hatchback" || includes title "hatchback")%bool then "hatchback"
    else if (includes url "sedan" || includes title "sedan")%bool then "sedan"
    else if (includes url "suv" || includes title "suv")%bool then "suv"
    else "sedan".

(** The generic extractor: [extractESC] and [extractISOFIX]. *)
Definition escKeywords : list string :=
  ["esc"; "esp"; "electronic stability"; "stability control";
   "electronic stability control"; "electronic stability program";
   "vehicle stability"; "traction control"].

Definition extractESC (text : string) : bool :=
  let lowerText := toLowerCase text in
  includesSome lowerText escKeywords.

Definition isofixKeywords : list string :=
  ["isofix"; "iso fix"; "child seat anchor"; "latch system";
   "child seat mounting"; "isofix anchor"].

Definition extractISOFIX (text : string) : bool :=
  let lowerText := toLowerCase text in
  includesSome lowerText isofixKeywords.

(** [{ ...spec, esc: e, isofix: i }]. *)
Definition withSafetyFeatures (spec : Spec) (e i : option bool) : Spec :=
  mkSpec (fuelType spec) (mileage spec) (range spec) (batteryCapacity spec)
         (displacement spec) (cylinders spec) (power spec) (torque spec)
         (transmissionType spec) (gears spec) (kerbWeight spec) (length spec)
         (width spec) (height spec) (groundClearance spec) (bodyType spec)
         (ncapStars spec) (airbags spec) e i (price spec).

(** [{ ...spec, bodyType: b, transmissionType: t }]. *)
Definition withDesign (spec : Spec) (b t : option string) : Spec :=
  mkSpec (fuelType spec) (mileage spec) (range spec) (batteryCapacity spec)
         (displacement spec) (cylinders spec) (power spec) (torque spec)
         t (gears spec) (kerbWeight spec) (length spec)
         (width spec) (height spec) (groundClearance spec) b
         (ncapStars spec) (airbags spec) (esc spec) (isofix spec) (price spec).

(** Every character of the text satisfies the test. *)
Fixpoint allChars (p : ascii -> bool) (s : string) : bool :=
  match s with
  | EmptyString => true
  | String c r => (p c && allChars p r)%bool
  end.

Definition notDigit (c : ascii) : bool := negb (isDigit c).
Definition notMinus (c : ascii) : bool := negb (Ascii.eqb c "-").

(** The sign and the rest of the text, as [parseFloat] splits them. *)
Definition signSplit (s : string) : bool * string :=
  match s with
  | String c r =>
      if Ascii.eqb c "-" then (true, r)
      else if Ascii.eqb c "+" then (false, r)
      else (false, s)
  | EmptyString => (false, s)
  end.

(* ================================================================= *)
(** ** gemini.js: [enhanceSpecWithGemini] *)

Module Gemini.
Record RealWorld := mkRealWorld {
  kmpl : option Q;
  kmkg : option Q;
  kmPerKWh : option Q
}.

Record Normalized := mkNormalized {
  fuelType : option string;
  realWorld : option RealWorld;
  kwPerTonne : option Q;
  segment : option string;
  missing : option (list string)
}.

(** The answer of the service: [geminiData.normalized] may be absent. *)
Record Data := mkData {
  normalized : option Normalized
}.
End Gemini.

(** A specification record together with the metadata the enhancement
    attaches to it. *)
Record Enhanced := mkEnhanced {
  fields : Spec;
  _geminiPowerToWeight : option Q;
  _segment : option string;
  _missingFields : option (list string)
}.

(** Truthiness of a nullable string, and of a nullable number. *)
Definition truthyStr (x : option string) : bool :=
  match x with
  | Some EmptyString | None => false
  | Some _ => true
  end.

Definition isFalsyNum (x : option Q) : bool :=
  match truthy x with
  | Some _ => false
  | None => true
  end.

Definition withFuelType (spec : Spec) (f : option string) : Spec :=
  mkSpec f (mileage spec) (range spec) (batteryCapacity spec)
         (displacement spec) (cylinders spec) (power spec) (torque spec)
         (transmissionType spec) (gears spec) (kerbWeight spec) (length spec)
         (width spec) (height spec) (groundClearance spec) (bodyType spec)
         (ncapStars spec) (airbags spec) (esc spec) (isofix spec) (price spec).

Definition withRange (spec : Spec) (r : option Q) : Spec :=
  mkSpec (fuelType spec) (mileage spec) r (batteryCapacity spec)
         (displacement spec) (cylinders spec) (power spec) (torque spec)
         (transmissionType spec) (gears spec) (kerbWeight spec) (length spec)
         (width spec) (height spec) (groundClearance spec) (bodyType spec)
         (ncapStars spec) (airbags spec) (esc spec) (isofix spec) (price spec).

(** The fields of the enhanced record that the scoring engine reads. *)
Definition enhanceFields (enhanced : Spec) (normalized : Gemini.Normalized) : Spec :=
  (* fuel type, if not detected locally *)
  let enhanced :=
    if (negb (truthyStr (fuelType enhanced))
        && truthyStr (Gemini.fuelType normalized))%bool
    then withFuelType enhanced (Gemini.fuelType normalized)
    else enhanced in
  (* real-world efficiency, if missing locally *)
  let enhanced :=
    match isFalsyNum (mileage enhanced), Gemini.realWorld normalized with
    | true, Some realWorld =>
        match truthy (Gemini.kmpl realWorld) with
        | Some kmpl => withMileage enhanced (Some kmpl)
        | None =>
            match truthy (Gemini.kmkg realWorld) with
            | Some kmkg => withMileage enhanced (Some kmkg)
            | None =>
                match truthy (Gemini.kmPerKWh realWorld),
                      truthy (batteryCapacity enhanced) with
                | Some kmPerKWh, Some batteryCapacity =>
                    withRange enhanced (Some (kmPerKWh * batteryCapacity))
                | _, _ => enhanced
                end
            end
        end
    | _, _ => enhanced
    end in
  enhanced.

Definition enhanceSpecWithGemini (localSpec : Enhanced)
    (geminiData : option Gemini.Data) : Enhanced :=
  match geminiData with
  | None => localSpec
  | Some data =>
      match Gemini.normalized data with
      | None => localSpec
      | Some normalized =>
          let enhanced := enhanceFields (fields localSpec) normalized in
          mkEnhanced
            enhanced
            (match isFalsyNum (power enhanced), isFalsyNum (kerbWeight enhanced),
                   truthy (Gemini.kwPerTonne normalized) with
             | true, true, Some kwPerTonne => Some kwPerTonne
             | _, _, _ => _geminiPowerToWeight localSpec
             end)
            (if truthyStr (Gemini.segment normalized)
             then Gemini.segment normalized
             else _segment localSpec)
            (match Gemini.missing normalized with
             | Some (m :: ms) => Some (m :: ms)
             | _ => _missingFields localSpec
             end)
      end
  end.

(* ================================================================= *)
(** ** popup.js: the weights of the settings form *)











(* ================================================================= *)
(** ** The CarWale extractor: [mapCarWaleSpec] *)

(** [if (!spec[field] && numValue) spec[field] = numValue]. *)
Definition setIfMissing (spec : bag) (field : string) (numValue : jsval) : bag :=
  if (negb (toBoolean (spec field)) && toBoolean numValue)%bool
  then setField spec field numValue
  else spec.

(** [if (!spec[field]) spec[field] = true]. *)
Definition flagIfMissing (spec : bag) (field : string) : bag :=
  if negb (toBoolean (spec field)) then setField spec field (JBool true)
  else spec.

(** [numValue * c]; the value parsed is a number whenever it is truthy. *)
Definition scaleNumber (numValue : jsval) (c : Q) : jsval :=
  match numValue with
  | JNum n => JNum (n * c)
  | _ => JNaN
  end.

(** [mapCarWaleSpec(spec, term, value)], the record after the call. *)
Definition mapCarWaleSpec (spec : bag) (term value : string) : result bag :=
  bind (parseNumber (JStr value)) (fun numValue =>
  if (includes term "mileage" || includes term "fuel efficiency"
      || includes term "arai")%bool then
    Ok (setIfMissing spec "mileage" numValue)
  else if (includes term "range" || includes term "driving range")%bool then
    Ok (setIfMissing spec "range" numValue)
  else if (includes term "battery"
           && (includes term "capacity" || includes term "kwh"))%bool then
    Ok (setIfMissing spec "batteryCapacity" numValue)
  else if (includes term "power"
           && (includes term "max" || includes term "peak"))%bool then
    Ok (if (negb (toBoolean (spec "power")) && toBoolean numValue)%bool
        then setField spec "power"
               (if includes (toLowerCase value) "hp"
                then scaleNumber numValue 0.746 else numValue)
        else spec)
  else if (includes term "weight"
           && (includes term "kerb" || includes term "curb"))%bool then
    Ok (setIfMissing spec "kerbWeight" numValue)
  else if includes term "airbag" then
    Ok (setIfMissing spec "airbags" numValue)
  else if (includes term "esc" || includes term "esp"
           || includes term "stability")%bool then
    Ok (flagIfMissing spec "esc")
  else if includes term "isofix" then
    Ok (flagIfMissing spec "isofix")
  else Ok spec).

(** The properties [mapCarWaleSpec] may write. *)
Definition carWaleFields : list string :=
  ["mileage"; "range"; "batteryCapacity"; "power"; "kerbWeight"; "airbags";
   "esc"; "isofix"].

(* ================================================================= *)
(** ** utils.js: [isCarSpecPage] *)

Definition carKeywords : list string :=
  ["specifications"; "specs"; "mileage"; "engine"; "fuel";
   "safety"; "features"; "price"; "variant"; "model"].

(** [isCarSpecPage], with [window.location.href], [document.title] and
    [document.body.textContent] as arguments. *)
Definition isCarSpecPage (href title textContent : string) : bool :=
  let url := toLowerCase href in
  let title := toLowerCase title in
  let content := toLowerCase textContent in
  let hasCarKeywords :=
    existsb (fun keyword => (includes title keyword || includes content keyword)%bool)
            carKeywords in
  let isCarSite :=
    (includes url "cardekho" || includes url "carwale"
     || includes url "car" || includes url "auto")%bool in
  (hasCarKeywords && isCarSite)%bool.

(* ================================================================= *)
(** ** Reasoning about the primitives *)

Lemma Qgtb_true a b : (a >? b) = true -> b < a.
Proof.
  unfold Qgtb. intros H. apply negb_true_iff in H.
  apply Qnot_le_lt. intros L. apply Qle_bool_iff in L. congruence.
Qed.

Lemma Qgtb_false a b : (a >? b) = false -> a <= b.
Proof.
  unfold Qgtb. intros H. apply negb_false_iff in H. now apply Qle_bool_iff.
Qed.

Lemma Qgeb_true a b : (a >=? b) = true -> b <= a.
Proof. unfold Qgeb. intros H. now apply Qle_bool_iff. Qed.

Lemma Qgeb_false a b : (a >=? b) = false -> a < b.
Proof.
  unfold Qgeb. intros H. apply Qnot_le_lt. intros L.
  apply Qle_bool_iff in L. congruence.
Qed.

Lemma Qltb_true a b : (a <? b) = true -> a < b.
Proof. unfold Qltb. apply Qgtb_true. Qed.

Lemma Qltb_false a b : (a <? b) = false -> b <= a.
Proof. unfold Qltb. apply Qgtb_false. Qed.

Lemma isTruthy_true x : isTruthy x = true -> ~ x == 0.
Proof.
  unfold isTruthy. intros H E. apply Qeq_bool_iff in E.
  rewrite E in H. discriminate.
Qed.

Lemma isTruthy_false x : isTruthy x = false -> x == 0.
Proof.
  unfold isTruthy. intros H. apply negb_false_iff in H.
  now apply Qeq_bool_iff.
Qed.

Lemma truthy_Some x v : truthy x = Some v -> x = Some v /\ ~ v == 0.
Proof.
  destruct x as [q|]; simpl; [|discriminate].
  destruct (isTruthy q) eqn:T; [|discriminate].
  intros E. injection E as <-. split; [reflexivity|now apply isTruthy_true].
Qed.

Lemma truthy_None x : truthy x = None -> x = None \/ exists v, x = Some v /\ v == 0.
Proof.
  destruct x as [q|]; simpl; [|now left].
  destruct (isTruthy q) eqn:T; [discriminate|].
  intros _. right. exists q. split; [reflexivity|now apply isTruthy_false].
Qed.

(** Case analysis on one comparison of the goal, keeping the fact learnt. *)
Ltac cmp_case :=
  match goal with
  | |- context [?a >? ?b] =>
      let H := fresh "C" in
      destruct (a >? b) eqn:H;
      [apply Qgtb_true in H | apply Qgtb_false in H]
  | |- context [?a >=? ?b] =>
      let H := fresh "C" in
      destruct (a >=? b) eqn:H;
      [apply Qgeb_true in H | apply Qgeb_false in H]
  | |- context [?a <? ?b] =>
      let H := fresh "C" in
      destruct (a <? b) eqn:H;
      [apply Qltb_true in H | apply Qltb_false in H]
  end.

(** Replace one [Qmin] or [Qmax] of the goal by a variable constrained by
    its specification, which is left as a premise of the goal. *)
Ltac minmax_case :=
  match goal with
  | |- context [Qmin ?a ?b] =>
      let m := fresh "m" in
      generalize (Q.min_spec a b); generalize (Qmin a b); intros m
  | |- context [Qmax ?a ?b] =>
      let m := fresh "m" in
      generalize (Q.max_spec a b); generalize (Qmax a b); intros m
  end.

(** Linear arithmetic with divisions by a literal turned into products. *)
Ltac inv_consts :=
  repeat match goal with
  | |- context [Qinv (Qmake ?n ?d)] =>
      let v := eval cbv in (Qinv (Qmake n d)) in
      change (Qinv (Qmake n d)) with v
  | H : context [Qinv (Qmake ?n ?d)] |- _ =>
      let v := eval cbv in (Qinv (Qmake n d)) in
      change (Qinv (Qmake n d)) with v in H
  end.

Ltac qlra := unfold Qdiv in *; inv_consts; lra.

(** Linear arithmetic once every [Qmin] and [Qmax] is case-split. *)
Ltac minmax_lra := repeat minmax_case; intros; qlra.





(* ================================================================= *)
(** ** The efficiency penalty *)

Lemma penalty_nonneg spec : 0 <= calculateEfficiencyPenalty spec.
Proof. unfold calculateEfficiencyPenalty. apply Q.le_max_l. Qed.

(* ================================================================= *)
(** ** The sub-scores *)









(* ================================================================= *)
(** ** The composite score *)








(* ================================================================= *)
(** ** Properties of the engine *)








(* ================================================================= *)
(** ** The safety score *)

Lemma isTruthy_pos x : 0 < x -> isTruthy x = true.
Proof.
  intros P. unfold isTruthy. apply negb_true_iff.
  destruct (Qeq_bool x 0) eqn:E; [|reflexivity].
  apply Qeq_bool_iff in E. lra.
Qed.

Lemma Qgtb_intro a b : b < a -> (a >? b) = true.
Proof.
  intros L. destruct (a >? b) eqn:E; [reflexivity|].
  apply Qgtb_false in E. lra.
Qed.

Lemma safety_with_positive_stars spec a :
  0 < a -> calculateSafetyScore (withNcapStars spec (Some a)) = Qmin (a / 5) 1.
Proof.
  intros P. unfold calculateSafetyScore. simpl.
  rewrite (isTruthy_pos a P), (Qgtb_intro a 0 P). reflexivity.
Qed.

Lemma safety_without_stars spec :
  truthy (ncapStars spec) = None ->
  calculateSafetyScore spec = Qmin (featureSafetyScore spec) 0.6.
Proof. intros E. unfold calculateSafetyScore. now rewrite E. Qed.

(** The claim C4 as it is written fails where the rating appears: with
    six airbags, ESC and ISOFIX the score is 0.6 with zero stars (and with
    no rating at all), and 0.2 with one star. *)
Lemma safety_drops_from_zero_to_one_star :
  calculateSafetyScore (withNcapStars wellEquipped (Some 0)) == 0.6 /\
  calculateSafetyScore (withNcapStars wellEquipped None) == 0.6 /\
  calculateSafetyScore (withNcapStars wellEquipped (Some 1)) == 0.2 /\
  ~ (calculateSafetyScore (withNcapStars wellEquipped (Some 0))
     <= calculateSafetyScore (withNcapStars wellEquipped (Some 1))).
Proof.
  repeat split; try (vm_compute; reflexivity).
  vm_compute. intros H. apply H. reflexivity.
Qed.

(** C4, amended. With all other fields fixed the safety score is
    non-decreasing in ncapStars over the positive ratings; and when
    ncapStars is absent or 0 the score is the feature-derived one, which
    never exceeds 0.6 whatever airbags, esc and isofix are. *)
Theorem safety_monotone_over_positive_stars :
  (forall spec a b, 0 < a -> a <= b ->
     calculateSafetyScore (withNcapStars spec (Some a))
     <= calculateSafetyScore (withNcapStars spec (Some b))) /\
  (forall spec,
     ncapStars spec = None \/ (exists z, ncapStars spec = Some z /\ z == 0) ->
     calculateSafetyScore spec == Qmin (featureSafetyScore spec) 0.6 /\
     calculateSafetyScore spec <= 0.6).
Proof.
  split.
  - intros spec a b Pa Lab.
    rewrite !safety_with_positive_stars by lra.
    minmax_lra.
  - intros spec H.
    assert (E : truthy (ncapStars spec) = None).
    { destruct H as [-> | (z & -> & Z)]; [reflexivity|].
      simpl. unfold isTruthy.
      apply Qeq_bool_iff in Z. now rewrite Z. }
    rewrite (safety_without_stars spec E). split; [reflexivity|].
    apply Q.le_min_r.
Qed.

Lemma safety_monotone_over_positive_stars_witness :
  calculateSafetyScore (withNcapStars wellEquipped (Some 3))
  <= calculateSafetyScore (withNcapStars wellEquipped (Some 4)) /\
  calculateSafetyScore wellEquipped <= 0.6.
Proof.
  split.
  - apply (proj1 safety_monotone_over_positive_stars wellEquipped 3 4); lra.
  - apply (proj2 safety_monotone_over_positive_stars wellEquipped).
    left. reflexivity.
Defined.

(* ================================================================= *)
(** ** Real-world efficiency *)

Lemma truthy_pos v : 0 < v -> truthy (Some v) = Some v.
Proof. intros P. simpl. now rewrite isTruthy_pos. Qed.





(** C7. An electric record with no mileage and a positive range and battery
    capacity has real-world efficiency (range x 0.75) / batteryCapacity;
    for range 300 and capacity 40 this is 5.625. *)
Theorem ev_real_world_efficiency :
  (forall spec r b,
     fuelType spec = Some "electric" -> mileage spec = None ->
     range spec = Some r -> batteryCapacity spec = Some b ->
     0 < r -> 0 < b ->
     calculateRealWorldEfficiency spec == (r * 0.75) / b) /\
  calculateRealWorldEfficiency (evSpec 300 40) == 5.625.
Proof.
  split.
  - intros spec r b Ef Em Er Eb Pr Pb. unfold calculateRealWorldEfficiency.
    rewrite Ef, Em, Er, Eb. rewrite (truthy_pos r Pr), (truthy_pos b Pb).
    simpl. reflexivity.
  - vm_compute. reflexivity.
Qed.

Lemma ev_real_world_efficiency_witness :
  calculateRealWorldEfficiency (evSpec 300 40) == (300 * 0.75) / 40.
Proof.
  apply (proj1 ev_real_world_efficiency (evSpec 300 40) 300 40);
    try reflexivity; lra.
Defined.

(** The claim C8 as it is written fails: on the record of the scenario the
    penalty is 4 (hatchback 2, transmission 2, nothing else applies) and
    the real-world efficiency is 12.032; neither is within 0.5 of the
    announced -0.5 and 12.8. *)
Lemma swift_penalty_is_not_negative :
  calculateEfficiencyPenalty swiftSpec == 4 /\
  calculateRealWorldEfficiency swiftSpec == 12.032 /\
  ~ Qabs (calculateEfficiencyPenalty swiftSpec - (-0.5)) <= 0.5 /\
  ~ Qabs (calculateRealWorldEfficiency swiftSpec - 12.8) <= 0.5.
Proof.
  repeat split; try (vm_compute; reflexivity);
    vm_compute; intros H; apply H; reflexivity.
Qed.

(** C8, amended. On the record of the scenario no displacement, weight,
    cylinder or gear adjustment applies (1197 cc lies between 1000 and
    1200, 950 kg between 900 and 1000): the accumulated total is the body
    penalty of a hatchback plus the transmission term of a manual, the
    penalty is non-negative, between 2 and 4.  The real-world efficiency
    comes from the penalty-based estimate, baseline 16 times the penalty
    factor 1 - penalty x 0.015 times the correction 0.8, and lies between
    12 and 12.5. *)
Theorem swift_penalty_and_estimate :
  totalPenalty swiftSpec
    == bodyTypePenaltyOf "hatchback" + transmissionPenaltyOf "manual" /\
  bodyTypePenaltyOf "hatchback" == 2 /\
  2 <= calculateEfficiencyPenalty swiftSpec <= 4 /\
  calculateRealWorldEfficiency swiftSpec = penaltyBasedEfficiency swiftSpec /\
  calculateRealWorldEfficiency swiftSpec
    == 16 * (1 - calculateEfficiencyPenalty swiftSpec * 0.015) * 0.8 /\
  12 <= calculateRealWorldEfficiency swiftSpec <= 12.5.
Proof.
  repeat split; try (vm_compute; reflexivity); vm_compute; discriminate.
Qed.

(* ================================================================= *)
(** ** Cost per kilometre *)

Lemma strIs_true x lit : strIs x lit = true <-> x = Some lit.
Proof.
  destruct x as [f|]; simpl.
  - rewrite String.eqb_eq. split; [now intros ->|now intros [= ->]].
  - split; discriminate.
Qed.

Lemma strIs_false x lit : strIs x lit = false <-> x <> Some lit.
Proof.
  rewrite <- strIs_true. destruct (strIs x lit); split; congruence.
Qed.

(** The claim C9 as it is written fails on a hybrid: the price table has no
    entry for it, the efficiency is known, and the cost is not null but
    the petrol price over the efficiency. *)
Lemma hybrid_cost_is_not_null :
  lookupOpt (fuelType hybridSpec) (fuelPriceTable defaultFuelPrices) = None /\
  costPerDistance_spec hybridSpec defaultFuelPrices = None /\
  calculateRealWorldEfficiency hybridSpec == 21.25 /\
  calculateCostPerKm hybridSpec defaultFuelPrices
    = Some (FuelPrices.petrol defaultFuelPrices / calculateRealWorldEfficiency hybridSpec) /\
  calculateCostPerKm hybridSpec defaultFuelPrices
    <> costPerDistance_spec hybridSpec defaultFuelPrices.
Proof.
  repeat split; try (vm_compute; reflexivity).
  vm_compute. discriminate.
Qed.

(** C9, amended. The cost per distance is the price of the fuel divided by
    the real-world efficiency, where the price is the table entry of the
    fuel type for petrol, diesel and cng, the petrol entry for hybrid and
    the electricity entry for electric; it is null exactly when the
    real-world efficiency is falsy (zero) or the fuel type is none of these
    five (in particular absent). *)
Theorem cost_per_km_by_fuel spec fp :
  let eff := calculateRealWorldEfficiency spec in
  (calculateCostPerKm spec fp = None <->
   (eff == 0 \/ forall f, fuelType spec = Some f -> ~ In f pricedFuels)) /\
  (~ eff == 0 ->
   (fuelType spec = Some "petrol" ->
      calculateCostPerKm spec fp = Some (FuelPrices.petrol fp / eff)) /\
   (fuelType spec = Some "diesel" ->
      calculateCostPerKm spec fp = Some (FuelPrices.diesel fp / eff)) /\
   (fuelType spec = Some "cng" ->
      calculateCostPerKm spec fp = Some (FuelPrices.cng fp / eff)) /\
   (fuelType spec = Some "hybrid" ->
      calculateCostPerKm spec fp = Some (FuelPrices.petrol fp / eff)) /\
   (fuelType spec = Some "electric" ->
      calculateCostPerKm spec fp = Some (FuelPrices.electricity fp / eff))).
Proof.
  intros eff. unfold calculateCostPerKm. cbv zeta. fold eff. split.
  - destruct (isTruthy eff) eqn:T; simpl.
    + apply isTruthy_true in T.
      destruct (strIs (fuelType spec) "petrol") eqn:E1;
        [apply strIs_true in E1|apply strIs_false in E1].
      { split; [discriminate|]. intros [Z|N]; [contradiction|].
        exfalso. apply (N _ E1). simpl. tauto. }
      destruct (strIs (fuelType spec) "diesel") eqn:E2;
        [apply strIs_true in E2|apply strIs_false in E2].
      { split; [discriminate|]. intros [Z|N]; [contradiction|].
        exfalso. apply (N _ E2). simpl. tauto. }
      destruct (strIs (fuelType spec) "cng") eqn:E3;
        [apply strIs_true in E3|apply strIs_false in E3].
      { split; [discriminate|]. intros [Z|N]; [contradiction|].
        exfalso. apply (N _ E3). simpl. tauto. }
      destruct (strIs (fuelType spec) "hybrid") eqn:E4;
        [apply strIs_true in E4|apply strIs_false in E4].
      { split; [discriminate|]. intros [Z|N]; [contradiction|].
        exfalso. apply (N _ E4). simpl. tauto. }
      destruct (strIs (fuelType spec) "electric") eqn:E5;
        [apply strIs_true in E5|apply strIs_false in E5].
      { split; [discriminate|]. intros [Z|N]; [contradiction|].
        exfalso. apply (N _ E5). simpl. tauto. }
      split; [|reflexivity]. intros _. right. intros f Ef In5.
      simpl in In5. rewrite Ef in *.
      destruct In5 as [<-|[<-|[<-|[<-|[<-|[]]]]]]; congruence.
    + apply isTruthy_false in T. split; [|reflexivity]. intros _. now left.
  - intros NZ.
    assert (T : isTruthy eff = true).
    { destruct (isTruthy eff) eqn:T; [reflexivity|].
      apply isTruthy_false in T. contradiction. }
    rewrite T. simpl.
    repeat split; intros ->; reflexivity.
Qed.

Lemma cost_per_km_by_fuel_witness :
  calculateCostPerKm hybridSpec defaultFuelPrices
  = Some (FuelPrices.petrol defaultFuelPrices / calculateRealWorldEfficiency hybridSpec).
Proof.
  apply (proj2 (cost_per_km_by_fuel hybridSpec defaultFuelPrices)).
  - vm_compute. discriminate.
  - reflexivity.
Defined.



(* ================================================================= *)
(** ** The record normalizer *)

Lemma setField_same o k v : setField o k v k = v.
Proof. unfold setField. now rewrite String.eqb_refl. Qed.

Lemma setField_other o k v g : g <> k -> setField o k v g = o g.
Proof.
  intros N. unfold setField. apply String.eqb_neq in N. now rewrite N.
Qed.

(** [parseNumber] never raises: it returns [null] or a number. *)
Lemma parseNumber_returns text :
  exists v, parseNumber text = Ok v /\ (v = JNull \/ exists q, v = JNum q).
Proof.
  unfold parseNumber. destruct (toBoolean text) eqn:T; simpl.
  - destruct text as [| |b| |q|str]; simpl in T; try discriminate;
      unfold toString, bind;
      try (destruct b; [|discriminate]);
      match goal with
      | |- context [parseFloat ?c] => destruct (parseFloat c) as [n|]
      end; eauto.
  - eauto.
Qed.

Lemma coerceNumber_returns spec f :
  exists spec', coerceNumber spec f = Ok spec' /\
    absentOrNumber (spec' f) /\ (forall g, g <> f -> spec' g = spec g).
Proof.
  unfold coerceNumber. destruct (isNullish (spec f)) eqn:N; simpl.
  - exists spec. split; [reflexivity|]. split; [|reflexivity].
    destruct (spec f); simpl in N; try discriminate; exact I.
  - destruct (parseNumber_returns (spec f)) as (v & -> & Hv). simpl.
    exists (setField spec f v). split; [reflexivity|]. split.
    + rewrite setField_same. destruct Hv as [-> | (q & ->)]; exact I.
    + intros g Ng. now apply setField_other.
Qed.

Lemma forEach_coerceNumber fields : forall spec,
  exists r, forEach coerceNumber fields spec = Ok r /\
    (forall g, In g fields -> absentOrNumber (r g)) /\
    (forall g, ~ In g fields -> r g = spec g).
Proof.
  induction fields as [|f rest IH]; intros spec; simpl.
  - exists spec. split; [reflexivity|]. split; [intros g []|reflexivity].
  - destruct (coerceNumber_returns spec f) as (spec' & -> & Hf & Frame). simpl.
    destruct (IH spec') as (r & -> & Hin & Hout).
    exists r. split; [reflexivity|]. split.
    + intros g [<-|Hg].
      * destruct (in_dec string_dec f rest) as [I|I]; [now apply Hin|].
        now rewrite (Hout f I).
      * now apply Hin.
    + intros g Ng. rewrite Hout by tauto. apply Frame. intros ->. tauto.
Qed.

Lemma coerceBoolean_returns spec f :
  exists spec', coerceBoolean spec f = Ok spec' /\
    (forall g, g <> f -> spec' g = spec g).
Proof.
  unfold coerceBoolean. destruct (isNullish (spec f)); simpl.
  - exists spec. split; reflexivity.
  - eexists. split; [reflexivity|]. intros g Ng. now apply setField_other.
Qed.

Lemma forEach_coerceBoolean fields : forall spec,
  exists r, forEach coerceBoolean fields spec = Ok r /\
    (forall g, ~ In g fields -> r g = spec g).
Proof.
  induction fields as [|f rest IH]; intros spec; simpl.
  - exists spec. split; reflexivity.
  - destruct (coerceBoolean_returns spec f) as (spec' & -> & Frame). simpl.
    destruct (IH spec') as (r & -> & Hout).
    exists r. split; [reflexivity|].
    intros g Ng. rewrite Hout by tauto. apply Frame. intros ->. tauto.
Qed.

Lemma lowerFuelType_frame spec r :
  lowerFuelType spec = Ok r -> forall g, g <> "fuelType" -> r g = spec g.
Proof.
  unfold lowerFuelType. destruct (toBoolean (spec "fuelType")).
  - destruct (spec "fuelType"); try discriminate.
    intros [= <-] g Ng. now apply setField_other.
  - now intros [= <-].
Qed.

(** [validateSpec] returns unless [fuelType] is truthy and not a string. *)
Lemma validateSpec_returns rawSpec :
  toBoolean (rawSpec "fuelType") = false \/ (exists s, rawSpec "fuelType" = JStr s) ->
  exists r, validateSpec rawSpec = Ok r.
Proof.
  intros H. unfold validateSpec.
  destruct (forEach_coerceNumber numericFields rawSpec) as (r1 & -> & _ & F1). cbn [bind].
  destruct (forEach_coerceBoolean booleanFields r1) as (r2 & -> & F2). cbn [bind].
  assert (E : r2 "fuelType" = rawSpec "fuelType").
  { rewrite F2, F1; [reflexivity| |]; simpl; intuition discriminate. }
  unfold lowerFuelType. rewrite E.
  destruct H as [-> | (str & ->)]; [eauto|].
  destruct (toBoolean (JStr str)); eauto.
Qed.

Lemma validateSpec_fields rawSpec r :
  validateSpec rawSpec = Ok r ->
  (forall f, In f numericFields -> absentOrNumber (r f)) /\
  (forall f, In f uncoercedNumericFields -> r f = rawSpec f).
Proof.
  unfold validateSpec.
  destruct (forEach_coerceNumber numericFields rawSpec) as (r1 & -> & H1 & F1). cbn [bind].
  destruct (forEach_coerceBoolean booleanFields r1) as (r2 & -> & F2). cbn [bind].
  intros L. pose proof (lowerFuelType_frame r2 r L) as F3. split.
  - intros f Hf.
    rewrite F3, F2; [now apply H1| |];
      simpl in Hf; simpl; intuition (subst; discriminate).
  - intros f Hf.
    rewrite F3, F2, F1; [reflexivity| | |];
      simpl in Hf; simpl; intuition (subst; discriminate).
Qed.

(** The normalizer at work. *)
Example numberToString_examples :
  map numberToString [18.5; 1200; 0.05; -5; 1000000000000000000000; 0.00000015]
  = ["18.5"; "1200"; "0.05"; "-5"; "1e+21"; "1.5e-7"].
Proof. vm_compute. reflexivity. Qed.

Example parseFloat_examples :
  map parseFloat ["5."; ".5"; "-.5"; "-"; "."; "1-7"; "1.2.3"; "--5"]
  = [Some 5; Some (1 # 2); Some (-1 # 2); None; None; Some 1; Some (6 # 5); None].
Proof. vm_compute. reflexivity. Qed.

Example parseNumber_examples :
  map parseNumber
      [JStr "18.5 kmpl"; JNum 18.5; JStr "-5"; JNum (-5); JStr "n/a";
       JBool true; JNaN; JNum 0; JStr ""]
  = [Ok (JNum (37 # 2)); Ok (JNum (37 # 2)); Ok (JNum (-5)); Ok (JNum (-5)); Ok JNull;
     Ok JNull; Ok JNull; Ok JNull; Ok JNull].
Proof. vm_compute. reflexivity. Qed.

Example validateSpec_example :
  exists r, validateSpec extractedBag = Ok r /\
    r "fuelType" = JStr "petrol" /\ r "mileage" = JNum (37 # 2) /\
    r "price" = JNum (15 # 2) /\ r "esc" = JBool true /\ r "isofix" = JUndefined.
Proof. eexists. split; [reflexivity|]. vm_compute. repeat split. Qed.

Example validateSpec_raises :
  validateSpec (setField emptyBag "fuelType" (JNum 5)) = TypeError.
Proof. reflexivity. Qed.

(** The claim C3 as it is written fails: a mileage given as the text
    ["-5"] comes back as the number -5, and a [NaN] displacement comes back
    as it is, the field not being among those coerced. *)
Lemma validateSpec_keeps_negative_and_nan :
  (exists r, validateSpec negativeMileageBag = Ok r /\
     r "mileage" = JNum (-5) /\ ~ absentOrNonNegative (r "mileage")) /\
  (exists r, validateSpec nanDisplacementBag = Ok r /\
     r "displacement" = JNaN /\ ~ absentOrNonNegative (r "displacement")).
Proof.
  split; eexists; (split; [reflexivity|]); split;
    try (vm_compute; reflexivity).
  - vm_compute. intros H. apply H. reflexivity.
  - vm_compute. tauto.
Qed.

(** C3, amended. [validateSpec] returns a record whenever [fuelType] is
    falsy or a string.  In every record it returns, each of the eight
    fields it coerces (mileage, range, batteryCapacity, power, kerbWeight,
    price, ncapStars, airbags) is absent or a number, never [NaN]; the
    number may be negative.  The other numeric fields (displacement,
    cylinders, torque, gears, length, width, height, groundClearance) are
    returned as they were given. *)
Theorem validateSpec_numeric_fields rawSpec :
  (toBoolean (rawSpec "fuelType") = false \/ (exists s, rawSpec "fuelType" = JStr s) ->
   exists r, validateSpec rawSpec = Ok r) /\
  (forall r, validateSpec rawSpec = Ok r ->
     (forall f, In f numericFields -> absentOrNumber (r f)) /\
     (forall f, In f uncoercedNumericFields -> r f = rawSpec f)).
Proof.
  split.
  - apply validateSpec_returns.
  - intros r. apply validateSpec_fields.
Qed.

Lemma validateSpec_numeric_fields_witness :
  (exists r, validateSpec extractedBag = Ok r) /\
  (forall r, validateSpec negativeMileageBag = Ok r ->
     absentOrNumber (r "mileage") /\ r "displacement" = JUndefined).
Proof.
  split.
  - apply (proj1 (validateSpec_numeric_fields extractedBag)).
    right. exists "Petrol". reflexivity.
  - intros r Hr.
    destruct (proj2 (validateSpec_numeric_fields negativeMileageBag) r Hr) as [N U].
    split.
    + apply N. simpl. tauto.
    + rewrite U; [reflexivity|]. simpl. tauto.
Defined.
(* ================================================================= *)
(** ** More on the efficiency score *)

Lemma benchmarkEfficiencyScore_unfold spec eff :
  benchmarkEfficiencyScore spec eff =
  Qmin 1.0 (Qmax 0.05 (thresholdScore (thresholdsFor (fuelType spec)) eff
                       - Qmin (calculateEfficiencyPenalty spec * 0.012) 0.25)).
Proof. reflexivity. Qed.

(** The five threshold tables. *)
Lemma thresholdsFor_cases ft :
  thresholdsFor ft = mkThresholds 20 17 14 11 \/
  thresholdsFor ft = mkThresholds 25 22 19 16 \/
  thresholdsFor ft = mkThresholds 28 24 20 17 \/
  thresholdsFor ft = mkThresholds 30 26 22 18 \/
  thresholdsFor ft = mkThresholds 8.0 6.5 5.0 3.5.
Proof.
  unfold thresholdsFor.
  destruct (strIs ft "petrol"); [tauto|].
  destruct (strIs ft "diesel"); [tauto|].
  destruct (strIs ft "hybrid"); [tauto|].
  destruct (strIs ft "cng"); [tauto|].
  destruct (strIs ft "electric"); tauto.
Qed.

(** Divisions by a closed expression turned into products. *)
Ltac inv_closed :=
  repeat match goal with
  | |- context [Qinv ?c] =>
      let v := eval vm_compute in (Qinv c) in
      match v with
      | Qmake _ _ => change (Qinv c) with v
      end
  end.

Ltac thresholds_lra :=
  unfold thresholdScore; cbn [excellentThreshold goodThreshold averageThreshold poorThreshold];
  cbv zeta; repeat cmp_case; unfold Qdiv; inv_closed; minmax_lra.

Lemma thresholdScore_bounds ft eff :
  0.05 <= thresholdScore (thresholdsFor ft) eff <= 0.9.
Proof.
  destruct (thresholdsFor_cases ft) as [E|[E|[E|[E|E]]]]; rewrite E;
    thresholds_lra.
Qed.

Lemma thresholdScore_monotone ft a b :
  a <= b -> thresholdScore (thresholdsFor ft) a <= thresholdScore (thresholdsFor ft) b.
Proof.
  intros L.
  destruct (thresholdsFor_cases ft) as [E|[E|[E|[E|E]]]]; rewrite E;
    revert L; thresholds_lra.
Qed.

Lemma benchmarkEfficiencyScore_monotone spec a b :
  a <= b -> benchmarkEfficiencyScore spec a <= benchmarkEfficiencyScore spec b.
Proof.
  intros L. rewrite !benchmarkEfficiencyScore_unfold.
  generalize (thresholdScore_monotone (fuelType spec) a b L).
  generalize (thresholdScore (thresholdsFor (fuelType spec)) a).
  generalize (thresholdScore (thresholdsFor (fuelType spec)) b).
  intros sb sa. minmax_lra.
Qed.

Lemma penalty_withMileage spec m :
  calculateEfficiencyPenalty (withMileage spec m) = calculateEfficiencyPenalty spec.
Proof. reflexivity. Qed.

Lemma benchmark_withMileage spec m eff :
  benchmarkEfficiencyScore (withMileage spec m) eff = benchmarkEfficiencyScore spec eff.
Proof. reflexivity. Qed.

(** With a measured mileage the real-world efficiency is the mileage times
    the factor of the fuel type, whatever the other fields are. *)
Lemma realWorldEfficiency_measured spec m :
  truthy (mileage spec) = Some m ->
  calculateRealWorldEfficiency spec = m * mileageFactor (fuelType spec).
Proof.
  intros E. unfold calculateRealWorldEfficiency, mileageFactor. rewrite E.
  destruct (fuelType spec) as [f|]; [|reflexivity]. simpl.
  destruct (String.eqb_spec f "petrol") as [->|]; [reflexivity|].
  destruct (String.eqb_spec f "diesel") as [->|]; [reflexivity|].
  destruct (String.eqb_spec f "hybrid") as [->|]; [reflexivity|].
  destruct (String.eqb_spec f "cng"); reflexivity.
Qed.

Lemma mileageFactor_positive ft : 0.8 <= mileageFactor ft <= 0.85.
Proof.
  unfold mileageFactor, REAL_WORLD_FACTORS_hybrid, REAL_WORLD_FACTORS_ice.
  destruct (strIs ft "hybrid"); lra.
Qed.

Lemma efficiencyScore_measured spec m :
  0 < m ->
  calculateEfficiencyScore (withMileage spec (Some m))
  = benchmarkEfficiencyScore spec (m * mileageFactor (fuelType spec)).
Proof.
  intros P. unfold calculateEfficiencyScore. cbv zeta.
  rewrite (realWorldEfficiency_measured (withMileage spec (Some m)) m)
    by (apply truthy_pos; exact P).
  cbn [fuelType withMileage].
  assert (T : isTruthy (m * mileageFactor (fuelType spec)) = true).
  { apply isTruthy_pos. pose proof (mileageFactor_positive (fuelType spec)). nra. }
  rewrite T. reflexivity.
Qed.


(** X2. With every other field fixed, a higher measured mileage never
    lowers the efficiency score; the real-world efficiency of a record with
    a measured mileage is the mileage times 0.85 for a hybrid and 0.8 for
    any other fuel type. *)
Theorem efficiency_score_monotone_in_mileage spec m1 m2 :
  0 < m1 -> m1 <= m2 ->
  calculateRealWorldEfficiency (withMileage spec (Some m1))
    = m1 * mileageFactor (fuelType spec) /\
  calculateEfficiencyScore (withMileage spec (Some m1))
    <= calculateEfficiencyScore (withMileage spec (Some m2)).
Proof.
  intros P L. split.
  - apply (realWorldEfficiency_measured (withMileage spec (Some m1)) m1).
    apply truthy_pos; exact P.
  - rewrite !efficiencyScore_measured by lra.
    apply benchmarkEfficiencyScore_monotone.
    pose proof (mileageFactor_positive (fuelType spec)). nra.
Qed.

Lemma efficiency_score_monotone_in_mileage_witness :
  calculateEfficiencyScore (withMileage swiftSpec (Some 18))
  <= calculateEfficiencyScore (withMileage swiftSpec (Some 22)).
Proof.
  apply (efficiency_score_monotone_in_mileage swiftSpec 18 22); lra.
Defined.

(** X3. At equal fuel type and real-world efficiency, a larger design
    penalty never raises the benchmark score: the penalty is subtracted
    from the threshold score, up to 0.25. *)
Theorem benchmark_score_antitone_in_penalty s1 s2 eff :
  fuelType s1 = fuelType s2 ->
  calculateEfficiencyPenalty s1 <= calculateEfficiencyPenalty s2 ->
  benchmarkEfficiencyScore s2 eff <= benchmarkEfficiencyScore s1 eff /\
  benchmarkEfficiencyScore s1 eff - benchmarkEfficiencyScore s2 eff <= 0.25.
Proof.
  intros F L. rewrite !benchmarkEfficiencyScore_unfold. rewrite F.
  generalize (thresholdScore_bounds (fuelType s2) eff).
  generalize (thresholdScore (thresholdsFor (fuelType s2)) eff). intros s.
  generalize (penalty_nonneg s1). revert L.
  generalize (calculateEfficiencyPenalty s1), (calculateEfficiencyPenalty s2).
  intros p1 p2. minmax_lra.
Qed.

Lemma benchmark_score_antitone_in_penalty_witness :
  benchmarkEfficiencyScore swiftSpec 15 <= benchmarkEfficiencyScore lightHatchback 15.
Proof.
  apply (benchmark_score_antitone_in_penalty lightHatchback swiftSpec 15).
  - reflexivity.
  - vm_compute. discriminate.
Defined.




(* ================================================================= *)
(** ** clamp and normalize *)

Lemma Qdiv_le_mono x y d : 0 < d -> x <= y -> x / d <= y / d.
Proof.
  intros D L. unfold Qdiv. apply Qmult_le_compat_r; [exact L|].
  apply Qlt_le_weak, Qinv_lt_0_compat, D.
Qed.

Lemma Qdiv_nonpos x d : 0 < d -> x <= 0 -> x / d <= 0.
Proof.
  intros D L. apply Qle_shift_div_r; [exact D|]. lra.
Qed.

Lemma Qdiv_ge_1 x d : 0 < d -> d <= x -> 1 <= x / d.
Proof.
  intros D L. apply Qle_shift_div_l; [exact D|]. lra.
Qed.

Lemma Qdiv_in_unit x d : 0 < d -> 0 <= x <= d -> 0 <= x / d <= 1.
Proof.
  intros D [L U]. split.
  - apply Qle_shift_div_l; [exact D|]. lra.
  - apply Qle_shift_div_r; [exact D|]. lra.
Qed.

Lemma Qeq_bool_false_lt a b : b < a -> Qeq_bool a b = false.
Proof.
  intros L. destruct (Qeq_bool a b) eqn:E; [|reflexivity].
  apply Qeq_bool_iff in E. lra.
Qed.

Lemma normalize_monotone v1 v2 lo hi :
  lo < hi -> v1 <= v2 -> normalize v1 lo hi <= normalize v2 lo hi.
Proof.
  intros R L. unfold normalize. rewrite (Qeq_bool_false_lt hi lo R).
  unfold clamp.
  assert (D : (v1 - lo) / (hi - lo) <= (v2 - lo) / (hi - lo))
    by (apply Qdiv_le_mono; lra).
  revert D. generalize ((v1 - lo) / (hi - lo)), ((v2 - lo) / (hi - lo)).
  intros a b. minmax_lra.
Qed.

Lemma normalize_at_or_below v lo hi : lo < hi -> v <= lo -> normalize v lo hi == 0.
Proof.
  intros R L. unfold normalize. rewrite (Qeq_bool_false_lt hi lo R). unfold clamp.
  assert (D : (v - lo) / (hi - lo) <= 0) by (apply Qdiv_nonpos; lra).
  revert D. generalize ((v - lo) / (hi - lo)). intros a. minmax_lra.
Qed.

Lemma normalize_at_or_above v lo hi : lo < hi -> hi <= v -> normalize v lo hi == 1.
Proof.
  intros R L. unfold normalize. rewrite (Qeq_bool_false_lt hi lo R). unfold clamp.
  assert (D : 1 <= (v - lo) / (hi - lo)) by (apply Qdiv_ge_1; lra).
  revert D. generalize ((v - lo) / (hi - lo)). intros a. minmax_lra.
Qed.

Lemma normalize_inside v lo hi :
  lo < hi -> lo <= v <= hi -> normalize v lo hi == (v - lo) / (hi - lo).
Proof.
  intros R L. unfold normalize. rewrite (Qeq_bool_false_lt hi lo R). unfold clamp.
  assert (D : 0 <= (v - lo) / (hi - lo) <= 1) by (apply Qdiv_in_unit; lra).
  revert D. generalize ((v - lo) / (hi - lo)). intros a. minmax_lra.
Qed.

(** X5. [normalize] maps a value into [0,1] against a proper range
    [min < max]: 0 at and below [min], 1 at and above [max], the linear
    interpolation in between, and it is non-decreasing in the value.  On a
    degenerate range ([max = min]) it returns 0. *)
Theorem normalize_properties v lo hi :
  (lo < hi ->
     (v <= lo -> normalize v lo hi == 0) /\
     (hi <= v -> normalize v lo hi == 1) /\
     (lo <= v <= hi -> normalize v lo hi == (v - lo) / (hi - lo)) /\
     (forall v', v <= v' -> normalize v lo hi <= normalize v' lo hi)) /\
  (hi == lo -> normalize v lo hi = 0).
Proof.
  split.
  - intros R. split; [|split; [|split]].
    + now apply normalize_at_or_below.
    + now apply normalize_at_or_above.
    + now apply normalize_inside.
    + intros v' L. now apply normalize_monotone.
  - intros E. unfold normalize. apply Qeq_bool_iff in E. now rewrite E.
Qed.

Lemma normalize_properties_witness :
  normalize 28 price_lakh_min price_lakh_max == (28 - 6) / (50 - 6) /\
  normalize 3 7 7 = 0.
Proof.
  split.
  - apply (proj1 (normalize_properties 28 6 50)); lra.
  - apply (proj2 (normalize_properties 3 7 7)). reflexivity.
Defined.

(* ================================================================= *)
(** ** Value and performance scores *)

Lemma truthy_nonzero v : ~ v == 0 -> truthy (Some v) = Some v.
Proof.
  intros N. simpl. destruct (isTruthy v) eqn:T; [reflexivity|].
  apply isTruthy_false in T. contradiction.
Qed.

Lemma valueScore_with_price spec p e sf :
  ~ p == 0 ->
  calculateValueScore (withPrice spec (Some p)) e sf
  = (e + sf) / 2 * 0.6 + (1 - normalize p price_lakh_min price_lakh_max) * 0.4.
Proof.
  intros N. unfold calculateValueScore. cbn [price withPrice].
  now rewrite (truthy_nonzero p N).
Qed.

(** X6. The value-for-money score is 0 without a price.  With a price it
    is 0.6 times the mean of the efficiency and safety scores plus 0.4
    times the price advantage, so that it never increases with the price,
    never decreases with either input score, is the full 0.4 advantage up
    to a price of 6 and no advantage from a price of 50 on. *)
Theorem value_score_properties spec e sf :
  (truthy (price spec) = None -> calculateValueScore spec e sf = 0) /\
  (forall p1 p2, ~ p1 == 0 -> ~ p2 == 0 -> p1 <= p2 ->
     calculateValueScore (withPrice spec (Some p2)) e sf
     <= calculateValueScore (withPrice spec (Some p1)) e sf) /\
  (forall p e' sf', ~ p == 0 -> e <= e' -> sf <= sf' ->
     calculateValueScore (withPrice spec (Some p)) e sf
     <= calculateValueScore (withPrice spec (Some p)) e' sf') /\
  (forall p, ~ p == 0 -> p <= 6 ->
     calculateValueScore (withPrice spec (Some p)) e sf == (e + sf) / 2 * 0.6 + 0.4) /\
  (forall p, 50 <= p ->
     calculateValueScore (withPrice spec (Some p)) e sf == (e + sf) / 2 * 0.6).
Proof.
  split; [|split; [|split; [|split]]].
  - intros E. unfold calculateValueScore. now rewrite E.
  - intros p1 p2 N1 N2 L. rewrite !valueScore_with_price by assumption.
    assert (M : normalize p1 price_lakh_min price_lakh_max
                <= normalize p2 price_lakh_min price_lakh_max)
      by (apply normalize_monotone; [reflexivity|exact L]).
    revert M. generalize (normalize p1 price_lakh_min price_lakh_max),
                         (normalize p2 price_lakh_min price_lakh_max).
    intros a b M. qlra.
  - intros p e' sf' N Le Ls. rewrite !valueScore_with_price by assumption.
    generalize (normalize p price_lakh_min price_lakh_max). intros a. qlra.
  - intros p N L. rewrite valueScore_with_price by assumption.
    assert (Z : normalize p price_lakh_min price_lakh_max == 0)
      by (apply normalize_at_or_below; [reflexivity|exact L]).
    rewrite Z. qlra.
  - intros p L. rewrite valueScore_with_price by lra.
    assert (Z : normalize p price_lakh_min price_lakh_max == 1)
      by (apply normalize_at_or_above; [reflexivity|exact L]).
    rewrite Z. qlra.
Qed.

Lemma value_score_properties_witness :
  calculateValueScore (withPrice swiftSpec (Some 12)) 0.5 0.6
  <= calculateValueScore (withPrice swiftSpec (Some 8)) 0.5 0.6 /\
  calculateValueScore emptySpec 0.5 0.6 = 0.
Proof.
  split.
  - apply (proj1 (proj2 (value_score_properties swiftSpec 0.5 0.6)) 8 12); lra.
  - apply (proj1 (value_score_properties emptySpec 0.5 0.6)). reflexivity.
Defined.

Lemma perfScore_with_power spec p k e :
  ~ p == 0 -> truthy (kerbWeight spec) = Some k ->
  calculatePerformancePerEfficiencyScore (withPower spec (Some p)) e
  = normalize (p / (k / 1000)) power_to_weight_min power_to_weight_max * 0.7
    + e * 0.3.
Proof.
  intros N K. unfold calculatePerformancePerEfficiencyScore.
  cbn [power kerbWeight withPower]. now rewrite (truthy_nonzero p N), K.
Qed.

(** X7. The performance-per-efficiency score is the efficiency score
    itself when power or kerb weight is missing.  With both, for a positive
    kerb weight, it is 0.7 times the power-to-weight ratio normalized
    against [50,120] plus 0.3 times the efficiency score: it never
    decreases when the power or the efficiency score increases. *)
Theorem performance_score_properties spec e :
  (truthy (power spec) = None \/ truthy (kerbWeight spec) = None ->
     calculatePerformancePerEfficiencyScore spec e = e) /\
  (forall k p1 p2 e', truthy (kerbWeight spec) = Some k -> 0 < k ->
     ~ p1 == 0 -> ~ p2 == 0 -> p1 <= p2 -> e <= e' ->
     calculatePerformancePerEfficiencyScore (withPower spec (Some p1)) e
     <= calculatePerformancePerEfficiencyScore (withPower spec (Some p2)) e').
Proof.
  split.
  - intros H. unfold calculatePerformancePerEfficiencyScore.
    destruct H as [-> | H]; [reflexivity|].
    rewrite H. destruct (truthy (power spec)); reflexivity.
  - intros k p1 p2 e' K Pk N1 N2 L Le.
    rewrite (perfScore_with_power spec p1 k e N1 K),
            (perfScore_with_power spec p2 k e' N2 K).
    assert (M : normalize (p1 / (k / 1000)) power_to_weight_min power_to_weight_max
                <= normalize (p2 / (k / 1000)) power_to_weight_min power_to_weight_max).
    { apply normalize_monotone; [reflexivity|].
      apply Qdiv_le_mono; [|exact L]. apply Qlt_shift_div_l; lra. }
    revert M.
    generalize (normalize (p1 / (k / 1000)) power_to_weight_min power_to_weight_max),
               (normalize (p2 / (k / 1000)) power_to_weight_min power_to_weight_max).
    intros a b M. lra.
Qed.

Lemma performance_score_properties_witness :
  calculatePerformancePerEfficiencyScore (withPower swiftSpec (Some 60)) 0.5
  <= calculatePerformancePerEfficiencyScore (withPower swiftSpec (Some 66)) 0.5 /\
  calculatePerformancePerEfficiencyScore emptySpec 0.5 = 0.5.
Proof.
  split.
  - apply (proj2 (performance_score_properties swiftSpec 0.5) 950 60 66 0.5);
      try reflexivity; lra.
  - apply (proj1 (performance_score_properties emptySpec 0.5)). left. reflexivity.
Defined.

(* ================================================================= *)
(** ** More on the composite score and its metrics *)







Lemma Qdiv_nonzero a b : ~ a == 0 -> ~ b == 0 -> ~ a / b == 0.
Proof.
  intros A B E. apply A.
  rewrite <- (Qmult_div_r a b B). rewrite E. ring.
Qed.


Lemma round_to_cents x :
  Qabs (inject_Z (Math_round (x * 100)) / 100 - x) <= 0.005.
Proof.
  unfold Math_round.
  pose proof (Qfloor_le (x * 100 + 0.5)) as L.
  pose proof (Qlt_floor (x * 100 + 0.5)) as U.
  rewrite inject_Z_plus in U. change (inject_Z 1) with 1 in U.
  revert L U. generalize (inject_Z (Qfloor (x * 100 + 0.5))). intros z L U.
  apply Qabs_Qle_condition. split; qlra.
Qed.

Lemma round_to_tenths x :
  Qabs (inject_Z (Math_round (x * 10)) / 10 - x) <= 0.05.
Proof.
  unfold Math_round.
  pose proof (Qfloor_le (x * 10 + 0.5)) as L.
  pose proof (Qlt_floor (x * 10 + 0.5)) as U.
  rewrite inject_Z_plus in U. change (inject_Z 1) with 1 in U.
  revert L U. generalize (inject_Z (Qfloor (x * 10 + 0.5))). intros z L U.
  apply Qabs_Qle_condition. split; qlra.
Qed.

(** X9. The display metrics of the result: the power-to-weight metric is
    null exactly when power or kerb weight is missing (absent or zero), and
    otherwise is power / (kerbWeight / 1000) rounded to one decimal, within
    0.05 of it; the cost metric is the cost per kilometre rounded to two
    decimals, within 0.005 of it, and null when that cost is null or
    zero. *)
Theorem metrics_are_rounded spec w fp :
  let m := metrics (calculateCompositeScore spec w fp) in
  (Metrics.powerToWeight m = None <->
     truthy (power spec) = None \/ truthy (kerbWeight spec) = None) /\
  (forall p k, truthy (power spec) = Some p -> truthy (kerbWeight spec) = Some k ->
     exists v, Metrics.powerToWeight m = Some v /\
       Qabs (v - p / (k / 1000)) <= 0.05) /\
  (truthy (calculateCostPerKm spec fp) = None -> Metrics.costPerKm m = None) /\
  (forall c, truthy (calculateCostPerKm spec fp) = Some c ->
     exists v, Metrics.costPerKm m = Some v /\ Qabs (v - c) <= 0.005).
Proof.
  cbv zeta. unfold calculateCompositeScore. cbv zeta.
  cbn [metrics Metrics.powerToWeight Metrics.costPerKm].
  split; [|split; [|split]].
  - destruct (truthy (power spec)) as [p|] eqn:Ep.
    + destruct (truthy (kerbWeight spec)) as [k|] eqn:Ek.
      * apply truthy_Some in Ep, Ek. destruct Ep as [_ Np], Ek as [_ Nk].
        rewrite truthy_nonzero.
        -- split; [discriminate|]. intros [H|H]; discriminate.
        -- apply Qdiv_nonzero; [exact Np|]. apply Qdiv_nonzero; [exact Nk|].
           intros E; discriminate.
      * simpl. split; auto.
    + simpl. split; auto.
  - intros p k Ep Ek. rewrite Ep, Ek.
    apply truthy_Some in Ep, Ek. destruct Ep as [_ Np], Ek as [_ Nk].
    rewrite truthy_nonzero.
    + eexists. split; [reflexivity|]. apply round_to_tenths.
    + apply Qdiv_nonzero; [exact Np|]. apply Qdiv_nonzero; [exact Nk|].
      intros E; discriminate.
  - intros ->. reflexivity.
  - intros c ->. eexists. split; [reflexivity|]. apply round_to_cents.
Qed.

Lemma metrics_are_rounded_witness :
  exists v, Metrics.costPerKm (metrics (calculateCompositeScore swiftSpec defaultWeights defaultFuelPrices)) = Some v /\
    Qabs (v - FuelPrices.petrol defaultFuelPrices / calculateRealWorldEfficiency swiftSpec) <= 0.005.
Proof.
  apply (proj2 (proj2 (proj2 (metrics_are_rounded swiftSpec defaultWeights defaultFuelPrices)))).
  vm_compute. reflexivity.
Defined.




(* ================================================================= *)
(** ** Keyword tests on text *)

Lemma toLowerCase_app a b : toLowerCase (a ++ b) = toLowerCase a ++ toLowerCase b.
Proof. induction a as [|c a IH]; simpl; [reflexivity|now rewrite IH]. Qed.

Lemma lowerAscii_idempotent c : lowerAscii (lowerAscii c) = lowerAscii c.
Proof.
  destruct c as [[] [] [] [] [] [] [] []]; reflexivity.
Qed.

Lemma toLowerCase_idempotent s : toLowerCase (toLowerCase s) = toLowerCase s.
Proof.
  induction s as [|c s IH]; simpl; [reflexivity|].
  now rewrite lowerAscii_idempotent, IH.
Qed.

Lemma prefix_app k b : String.prefix k (k ++ b) = true.
Proof.
  induction k as [|c k IH]; simpl; [now destruct b|].
  destruct (ascii_dec c c); [exact IH|contradiction].
Qed.

Lemma includes_unfold text k :
  includes text k =
  if String.prefix k text then true
  else match text with
       | EmptyString => false
       | String _ rest => includes rest k
       end.
Proof. destruct text; reflexivity. Qed.

Lemma includes_app a k b : includes (a ++ k ++ b) k = true.
Proof.
  induction a as [|c a IH].
  - change ("" ++ k ++ b) with (k ++ b).
    rewrite includes_unfold. now rewrite prefix_app.
  - rewrite includes_unfold. change (String c a ++ k ++ b) with (String c (a ++ k ++ b)).
    destruct (String.prefix k (String c (a ++ k ++ b))); [reflexivity|exact IH].
Qed.

Lemma includes_empty k : includes "" k = true -> k = "".
Proof. destruct k; simpl; [reflexivity|discriminate]. Qed.

Lemma guessFuelType_as_lower t :
  guessFuelType (Some t) =
  let lowerText := toLowerCase t in
  if (includes lowerText "electric" || includes lowerText "ev"
      || includes lowerText "battery")%bool then "electric"
  else if includes lowerText "hybrid" then "hybrid"
  else if (includes lowerText "cng"
           || includes lowerText "compressed natural gas")%bool then "cng"
  else if includes lowerText "diesel" then "diesel"
  else "petrol".
Proof. destruct t; reflexivity. Qed.

(** X11. [guessFuelType] always answers one of the five fuel types the
    engine has a price and a baseline for, and petrol on a missing or empty
    text.  It ignores case, and tests substrings: a text with "ev" anywhere
    in it, in any case and even inside a word, is classified electric
    whatever else it says. *)
Theorem guessFuelType_properties :
  (forall text, In (guessFuelType text) pricedFuels) /\
  (guessFuelType None = "petrol" /\ guessFuelType (Some "") = "petrol") /\
  (forall t, guessFuelType (Some (toLowerCase t)) = guessFuelType (Some t)) /\
  (forall a k b, toLowerCase k = "ev" ->
     guessFuelType (Some (a ++ k ++ b)) = "electric").
Proof.
  split; [|split; [|split]].
  - intros [t|]; [|simpl; tauto]. rewrite guessFuelType_as_lower. cbv zeta.
    destruct (includes _ "electric" || includes _ "ev" || includes _ "battery")%bool;
      [simpl; tauto|].
    destruct (includes _ "hybrid"); [simpl; tauto|].
    destruct (includes _ "cng" || includes _ "compressed natural gas")%bool;
      [simpl; tauto|].
    destruct (includes _ "diesel"); simpl; tauto.
  - split; reflexivity.
  - intros t. rewrite !guessFuelType_as_lower. cbv zeta.
    now rewrite toLowerCase_idempotent.
  - intros a k b K. rewrite guessFuelType_as_lower. cbv zeta.
    rewrite !toLowerCase_app, K, includes_app.
    now rewrite orb_true_r.
Qed.

Lemma guessFuelType_properties_witness :
  guessFuelType (Some "Diesel 1.5 review") = "electric".
Proof.
  apply (proj2 (proj2 (proj2 guessFuelType_properties)) "Diesel 1.5 r" "ev" "iew").
  reflexivity.
Defined.

Lemma extractTransmissionType_cases text :
  In (extractTransmissionType text) ["cvt"; "amt"; "dct"; "automatic"; "manual"; "hybrid"].
Proof.
  unfold extractTransmissionType. cbv zeta.
  destruct (includes _ "cvt"); [simpl; tauto|].
  destruct (includes _ "amt"); [simpl; tauto|].
  destruct (includes _ "dct" || includes _ "dual clutch")%bool; [simpl; tauto|].
  destruct (includes _ "automatic"); [simpl; tauto|].
  destruct (includes _ "manual"); [simpl; tauto|].
  destruct (includes _ "hybrid"); simpl; tauto.
Qed.

Lemma extractBodyType_cases href title text :
  In (extractBodyType href title text)
     ["hatchback"; "sedan"; "suv"; "mpv"; "crossover"; "coupe"; "convertible"].
Proof.
  unfold extractBodyType. cbv zeta.
  destruct (includes _ "hatchback"); [simpl; tauto|].
  destruct (includes _ "sedan"); [simpl; tauto|].
  destruct (includes _ "suv"); [simpl; tauto|].
  destruct (includes _ "mpv" || includes _ "muv")%bool; [simpl; tauto|].
  destruct (includes _ "crossover"); [simpl; tauto|].
  destruct (includes _ "coupe"); [simpl; tauto|].
  destruct (includes _ "convertible"); [simpl; tauto|].
  destruct (includes _ "hatchback" || includes _ "hatchback")%bool; [simpl; tauto|].
  destruct (includes _ "sedan" || includes _ "sedan")%bool; [simpl; tauto|].
  destruct (includes _ "suv" || includes _ "suv")%bool; simpl; tauto.
Qed.

(** X12. The generic extractor always names a body type and a
    transmission type the penalty tables know: the body type found in the
    text, the address or the title is one of the seven keys of
    bodyTypePenalties, the transmission type one of the six keys of
    transmissionPenalties.  In the penalty of a record carrying them the
    body term is the table entry, between 2 and 20 (never the fallback for
    unknown types), and the transmission term is -3, -1, 2, 3 or 5, never
    0. *)
Theorem extracted_design_is_known href title text :
  let b := extractBodyType href title text in
  let t := extractTransmissionType text in
  (exists v, lookup b bodyTypePenalties = Some v /\
     bodyTypePenaltyOf (toLowerCase (orStr (Some b) "sedan")) = v /\ 2 <= v <= 20) /\
  (exists v, lookup t transmissionPenalties = Some v) /\
  In (transmissionPenaltyOf (toLowerCase (orStr (Some t) "manual")))
     [-3; -1; 2; 3; 5].
Proof.
  cbv zeta.
  pose proof (extractBodyType_cases href title text) as B.
  pose proof (extractTransmissionType_cases text) as T.
  split; [|split].
  - simpl in B.
    destruct B as [<-|[<-|[<-|[<-|[<-|[<-|[<-|[]]]]]]]];
      eexists; (split; [reflexivity|]); (split; [reflexivity|]); split; discriminate.
  - simpl in T.
    destruct T as [<-|[<-|[<-|[<-|[<-|[<-|[]]]]]]]; eexists; reflexivity.
  - simpl in T.
    destruct T as [<-|[<-|[<-|[<-|[<-|[<-|[]]]]]]]; vm_compute; tauto.
Qed.

Lemma includesSome_app a k b keywords :
  In k keywords -> includesSome (a ++ k ++ b) keywords = true.
Proof.
  intros I. unfold includesSome. apply existsb_exists.
  exists k. split; [exact I|apply includes_app].
Qed.

(** X13. [extractESC] and [extractISOFIX] are substring tests that ignore
    case: they answer true as soon as one of their keywords occurs
    anywhere in the text, even inside another word (a text with
    "Description" has ESC), and false on the empty text. *)
Theorem keyword_extractors_properties :
  (forall a k b, In (toLowerCase k) escKeywords -> extractESC (a ++ k ++ b) = true) /\
  (forall a k b, In (toLowerCase k) isofixKeywords -> extractISOFIX (a ++ k ++ b) = true) /\
  (forall t, extractESC (toLowerCase t) = extractESC t /\
             extractISOFIX (toLowerCase t) = extractISOFIX t) /\
  (extractESC "" = false /\ extractISOFIX "" = false).
Proof.
  split; [|split; [|split]].
  - intros a k b I. unfold extractESC. cbv zeta.
    rewrite !toLowerCase_app. now apply includesSome_app.
  - intros a k b I. unfold extractISOFIX. cbv zeta.
    rewrite !toLowerCase_app. now apply includesSome_app.
  - intros t. unfold extractESC, extractISOFIX. cbv zeta.
    now rewrite toLowerCase_idempotent.
  - split; reflexivity.
Qed.

Lemma keyword_extractors_properties_witness :
  extractESC "Product Description" = true.
Proof.
  apply (proj1 keyword_extractors_properties "Product D" "esc" "ription").
  simpl. tauto.
Defined.

(* ================================================================= *)
(** ** truncateText *)

Lemma length_app a b : String.length (a ++ b) = (String.length a + String.length b)%nat.
Proof. induction a as [|c a IH]; simpl; [reflexivity|now rewrite IH]. Qed.

Lemma length_substring_0 n s :
  (n <= String.length s)%nat -> String.length (substring 0 n s) = n.
Proof.
  revert s. induction n as [|n IH]; intros s L.
  - destruct s; reflexivity.
  - destruct s as [|c s]; simpl in *; [inversion L|].
    rewrite IH; [reflexivity|]. now apply le_S_n.
Qed.

Lemma substring_0_app m n s x :
  (m <= n)%nat -> (n <= String.length s)%nat ->
  substring 0 m (substring 0 n s ++ x) = substring 0 m s.
Proof.
  revert n s. induction m as [|m IH]; intros n s Lmn Lns.
  - destruct (substring 0 n s ++ x), s; reflexivity.
  - destruct n as [|n]; [inversion Lmn|].
    destruct s as [|c s]; simpl in *; [inversion Lns|].
    rewrite IH; [reflexivity|now apply le_S_n|now apply le_S_n].
Qed.

Lemma truncateText_long text maxLength :
  (maxLength < String.length text)%nat ->
  truncateText text maxLength = substring 0 maxLength text ++ "...".
Proof.
  intros L. unfold truncateText.
  destruct text as [|c s]; [inversion L|].
  apply Nat.leb_gt in L. now rewrite L.
Qed.

Lemma truncateText_short text maxLength :
  (String.length text <= maxLength)%nat -> truncateText text maxLength = text.
Proof.
  intros L. unfold truncateText. destruct text as [|c s]; [reflexivity|].
  apply Nat.leb_le in L. now rewrite L.
Qed.

(** X14. [truncateText] returns a text within the limit as it is, and cuts
    a longer one to its first maxLength characters followed by "...", so
    that the result has at most maxLength + 3 characters.  Truncating to a
    limit and then to a smaller or equal one gives the same as truncating
    to the latter at once; in particular truncating is idempotent. *)
Theorem truncateText_properties text :
  (forall n, (String.length text <= n)%nat -> truncateText text n = text) /\
  (forall n, (n < String.length text)%nat ->
     truncateText text n = substring 0 n text ++ "..." /\
     String.length (truncateText text n) = (n + 3)%nat) /\
  (forall n, (String.length (truncateText text n) <= n + 3)%nat) /\
  (forall m n, (m <= n)%nat ->
     truncateText (truncateText text n) m = truncateText text m).
Proof.
  split; [|split; [|split]].
  - intros n. apply truncateText_short.
  - intros n L. rewrite (truncateText_long text n L). split; [reflexivity|].
    rewrite length_app, length_substring_0; [reflexivity|].
    now apply Nat.lt_le_incl.
  - intros n. destruct (Nat.le_gt_cases (String.length text) n) as [L|L].
    + rewrite (truncateText_short text n L). apply Nat.le_trans with n; [exact L|].
      apply Nat.le_add_r.
    + rewrite (truncateText_long text n L).
      rewrite length_app, length_substring_0; [apply Nat.le_refl|].
      now apply Nat.lt_le_incl.
  - intros m n Lmn.
    destruct (Nat.le_gt_cases (String.length text) n) as [L|L].
    + now rewrite (truncateText_short text n L).
    + rewrite (truncateText_long text n L).
      assert (Ln : (n <= String.length text)%nat) by now apply Nat.lt_le_incl.
      rewrite truncateText_long.
      * rewrite (truncateText_long text m); [|now apply Nat.le_lt_trans with n].
        f_equal. now apply substring_0_app.
      * rewrite length_app, length_substring_0 by exact Ln. simpl.
        apply Nat.le_lt_trans with n; [exact Lmn|].
        rewrite Nat.add_comm. simpl. apply Nat.lt_lt_succ_r, Nat.lt_lt_succ_r, Nat.lt_succ_diag_r.
Qed.

Lemma truncateText_properties_witness :
  truncateText (truncateText "Maruti Suzuki Swift" 10) 6 = truncateText "Maruti Suzuki Swift" 6.
Proof.
  apply (proj2 (proj2 (proj2 (truncateText_properties "Maruti Suzuki Swift"))) 6%nat 10%nat).
  repeat constructor.
Defined.

(* ================================================================= *)
(** ** More on the record normalizer *)

Lemma forEach_coerceNumber_exact fields : forall spec,
  NoDup fields ->
  exists r, forEach coerceNumber fields spec = Ok r /\
    (forall g, In g fields ->
       if isNullish (spec g) then r g = spec g
       else parseNumber (spec g) = Ok (r g)) /\
    (forall g, ~ In g fields -> r g = spec g).
Proof.
  induction fields as [|f rest IH]; intros spec ND; simpl.
  - exists spec. split; [reflexivity|]. split; [intros g []|reflexivity].
  - inversion ND as [|? ? Nin ND']; subst.
    assert (S : exists spec', coerceNumber spec f = Ok spec' /\
      (if isNullish (spec f) then spec' f = spec f
       else parseNumber (spec f) = Ok (spec' f)) /\
      (forall g, g <> f -> spec' g = spec g)).
    { unfold coerceNumber. destruct (isNullish (spec f)) eqn:N; simpl.
      - exists spec. repeat split.
      - destruct (parseNumber_returns (spec f)) as (v & E & _). rewrite E. simpl.
        exists (setField spec f v). split; [reflexivity|]. split.
        + now rewrite setField_same.
        + intros g Ng. now apply setField_other. }
    destruct S as (spec' & -> & Hf & Frame). simpl.
    destruct (IH spec' ND') as (r & -> & Hin & Hout).
    exists r. split; [reflexivity|]. split.
    + intros g [<-|Hg].
      * now rewrite (Hout f Nin).
      * assert (Ng : g <> f) by (intros ->; contradiction).
        specialize (Hin g Hg). now rewrite (Frame g Ng) in Hin.
    + intros g Ng. rewrite Hout by tauto. apply Frame. intros ->. tauto.
Qed.

Lemma forEach_coerceBoolean_exact fields : forall spec,
  NoDup fields ->
  exists r, forEach coerceBoolean fields spec = Ok r /\
    (forall g, In g fields ->
       r g = if isNullish (spec g) then spec g else JBool (toBoolean (spec g))) /\
    (forall g, ~ In g fields -> r g = spec g).
Proof.
  induction fields as [|f rest IH]; intros spec ND; simpl.
  - exists spec. split; [reflexivity|]. split; [intros g []|reflexivity].
  - inversion ND as [|? ? Nin ND']; subst.
    assert (S : exists spec', coerceBoolean spec f = Ok spec' /\
      spec' f = (if isNullish (spec f) then spec f else JBool (toBoolean (spec f))) /\
      (forall g, g <> f -> spec' g = spec g)).
    { unfold coerceBoolean. destruct (isNullish (spec f)) eqn:N; simpl.
      - exists spec. repeat split.
      - eexists. split; [reflexivity|]. split.
        + now rewrite setField_same.
        + intros g Ng. now apply setField_other. }
    destruct S as (spec' & -> & Hf & Frame). simpl.
    destruct (IH spec' ND') as (r & -> & Hin & Hout).
    exists r. split; [reflexivity|]. split.
    + intros g [<-|Hg].
      * now rewrite (Hout f Nin).
      * assert (Ng : g <> f) by (intros ->; contradiction).
        rewrite (Hin g Hg). now rewrite (Frame g Ng).
    + intros g Ng. rewrite Hout by tauto. apply Frame. intros ->. tauto.
Qed.

Lemma NoDup_numericFields : NoDup numericFields.
Proof.
  unfold numericFields.
  repeat (constructor; [simpl; intuition discriminate|]). constructor.
Qed.

Lemma NoDup_booleanFields : NoDup booleanFields.
Proof.
  unfold booleanFields.
  repeat (constructor; [simpl; intuition discriminate|]). constructor.
Qed.

Lemma validateSpec_exact rawSpec :
  (validateSpec rawSpec = TypeError <->
     toBoolean (rawSpec "fuelType") = true /\ forall s, rawSpec "fuelType" <> JStr s) /\
  (forall r, validateSpec rawSpec = Ok r ->
     (forall f, In f numericFields ->
        if isNullish (rawSpec f) then r f = rawSpec f
        else parseNumber (rawSpec f) = Ok (r f)) /\
     (forall f, In f booleanFields ->
        r f = if isNullish (rawSpec f) then rawSpec f
              else JBool (toBoolean (rawSpec f))) /\
     r "fuelType" =
       match rawSpec "fuelType" with
       | JStr s => JStr (toLowerCase s)
       | v => v
       end /\
     (forall k, ~ In k numericFields -> ~ In k booleanFields -> k <> "fuelType" ->
        r k = rawSpec k)).
Proof.
  unfold validateSpec.
  destruct (forEach_coerceNumber_exact numericFields rawSpec NoDup_numericFields)
    as (r1 & -> & H1 & F1). cbn [bind].
  destruct (forEach_coerceBoolean_exact booleanFields r1 NoDup_booleanFields)
    as (r2 & -> & H2 & F2). cbn [bind].
  assert (E : r2 "fuelType" = rawSpec "fuelType").
  { rewrite F2, F1; [reflexivity| |]; simpl; intuition discriminate. }
  split.
  - unfold lowerFuelType. rewrite E.
    destruct (rawSpec "fuelType") as [| |b| |q|s] eqn:V; simpl.
    + split; [discriminate|]. intros [T _]. discriminate.
    + split; [discriminate|]. intros [T _]. discriminate.
    + destruct b; simpl.
      * split; [intros _|reflexivity]. split; [reflexivity|discriminate].
      * split; [discriminate|]. intros [T _]. discriminate.
    + split; [discriminate|]. intros [T _]. discriminate.
    + destruct (isTruthy q); simpl.
      * split; [intros _|reflexivity]. split; [reflexivity|discriminate].
      * split; [discriminate|]. intros [T _]. discriminate.
    + destruct s as [|a s']; simpl.
      * split; [discriminate|]. intros [T _]. discriminate.
      * split; [discriminate|]. intros [_ N]. exfalso. now apply (N (String a s')).
  - intros r L.
    pose proof (lowerFuelType_frame r2 r L) as F3.
    split; [|split; [|split]].
    + intros f Hf.
      assert (R : r f = r1 f).
      { rewrite F3, F2; [reflexivity| |];
          simpl in Hf; simpl; intuition (subst; discriminate). }
      rewrite R. now apply H1.
    + intros f Hf.
      assert (R : r f = r2 f).
      { apply F3. simpl in Hf. intuition (subst; discriminate). }
      assert (R1 : r1 f = rawSpec f).
      { apply F1. simpl in Hf. simpl. intuition (subst; discriminate). }
      rewrite R, (H2 f Hf), R1. reflexivity.
    + revert L. unfold lowerFuelType. rewrite E.
      destruct (rawSpec "fuelType") as [| |b| |q|s] eqn:V; simpl;
        try (intros [= <-]; exact E).
      * destruct b; [discriminate|]. intros [= <-]. exact E.
      * destruct (isTruthy q); [discriminate|]. intros [= <-]. exact E.
      * destruct s as [|a s']; simpl; intros [= <-]; [exact E|].
        now rewrite setField_same.
    + intros k N1 N2 N3. now rewrite F3, F2, F1.
Qed.

(** X15. What [validateSpec] does, field by field.  It raises a TypeError
    exactly when fuelType is truthy and not a string.  Otherwise, in the
    record it returns: a coerced numeric field that was null or undefined
    is kept, any other is replaced by the result of parseNumber; esc and
    isofix are kept when null or undefined and otherwise replaced by their
    truth value; a fuelType string is lowercased; every other property of
    the bag (name, metadata, the uncoerced fields) is returned as it
    was. *)
Theorem validateSpec_field_by_field rawSpec :
  (validateSpec rawSpec = TypeError <->
     toBoolean (rawSpec "fuelType") = true /\ forall s, rawSpec "fuelType" <> JStr s) /\
  (forall r, validateSpec rawSpec = Ok r ->
     (forall f, In f numericFields ->
        if isNullish (rawSpec f) then r f = rawSpec f
        else parseNumber (rawSpec f) = Ok (r f)) /\
     (forall f, In f booleanFields ->
        r f = if isNullish (rawSpec f) then rawSpec f
              else JBool (toBoolean (rawSpec f))) /\
     r "fuelType" =
       match rawSpec "fuelType" with
       | JStr s => JStr (toLowerCase s)
       | v => v
       end /\
     (forall k, ~ In k numericFields -> ~ In k booleanFields -> k <> "fuelType" ->
        r k = rawSpec k)).
Proof. exact (validateSpec_exact rawSpec). Qed.

Lemma validateSpec_field_by_field_witness :
  exists r, validateSpec extractedBag = Ok r /\
    r "fuelType" = JStr "petrol" /\ r "carName" = JUndefined.
Proof.
  destruct (validateSpec_returns extractedBag) as (r & Hr).
  { right. exists "Petrol". reflexivity. }
  exists r. split; [exact Hr|].
  destruct (proj2 (validateSpec_field_by_field extractedBag) r Hr) as (_ & _ & F & O).
  split.
  - exact F.
  - rewrite O; [reflexivity| | |]; simpl; intuition discriminate.
Defined.

(* ================================================================= *)
(** ** More on parseNumber *)

Lemma parseFloat_unfold s :
  parseFloat s =
  let (negative, s1) := signSplit s in
  let (intPart, s2) := takeDigits s1 in
  let fracPart :=
    match s2 with
    | String "." r => fst (takeDigits r)
    | _ => EmptyString
    end in
  match intPart, fracPart with
  | EmptyString, EmptyString => None
  | _, _ =>
      let v := inject_Z (digitsValue intPart)
               + inject_Z (digitsValue fracPart)
                 / inject_Z (pow10 (String.length fracPart)) in
      Some (Qred (if negative then - v else v))
  end.
Proof.
  destruct s as [|c r]; [reflexivity|].
  destruct c as [[] [] [] [] [] [] [] []]; reflexivity.
Qed.

Lemma takeDigits_digits s : allChars isDigit (fst (takeDigits s)) = true.
Proof.
  induction s as [|c r IH]; simpl; [reflexivity|].
  destruct (isDigit c) eqn:D; [|reflexivity].
  destruct (takeDigits r) as [d rest]. simpl in *. now rewrite D, IH.
Qed.

Lemma takeDigits_no_digit s :
  allChars notDigit s = true -> takeDigits s = (EmptyString, s).
Proof.
  destruct s as [|c r]; simpl; [reflexivity|].
  unfold notDigit. intros H. apply andb_true_iff in H. destruct H as [H _].
  apply negb_true_iff in H. now rewrite H.
Qed.

Lemma isDigit_value c : isDigit c = true -> (0 <= Z.of_nat (nat_of_ascii c) - 48)%Z.
Proof.
  unfold isDigit. cbv zeta. intros H. apply andb_true_iff in H. destruct H as [L _].
  apply Nat.leb_le in L. apply Zle_minus_le_0.
  change 48%Z with (Z.of_nat 48). now apply Nat2Z.inj_le.
Qed.

Lemma digitsValueFrom_nonneg d : forall acc,
  allChars isDigit d = true -> (0 <= acc)%Z -> (0 <= digitsValueFrom acc d)%Z.
Proof.
  induction d as [|c r IH]; intros acc H A; simpl; [exact A|].
  simpl in H. apply andb_true_iff in H. destruct H as [D R].
  apply IH; [exact R|]. apply isDigit_value in D.
  apply Z.add_nonneg_nonneg; [|exact D]. apply Z.mul_nonneg_nonneg; [exact A|discriminate].
Qed.

Lemma pow10_pos n : (0 < pow10 n)%Z.
Proof. unfold pow10. apply Z.pow_pos_nonneg; [reflexivity|apply Nat2Z.is_nonneg]. Qed.

Lemma keepNumeric_no_digit s :
  allChars notDigit s = true -> allChars notDigit (keepNumeric s) = true.
Proof.
  induction s as [|c r IH]; simpl; [reflexivity|].
  intros H. apply andb_true_iff in H. destruct H as [D R].
  destruct (isDigit c || Ascii.eqb c "." || Ascii.eqb c "-")%bool; simpl;
    [rewrite D|]; now apply IH.
Qed.

Lemma keepNumeric_no_minus s :
  allChars notMinus s = true -> allChars notMinus (keepNumeric s) = true.
Proof.
  induction s as [|c r IH]; simpl; [reflexivity|].
  intros H. apply andb_true_iff in H. destruct H as [D R].
  destruct (isDigit c || Ascii.eqb c "." || Ascii.eqb c "-")%bool; simpl;
    [rewrite D|]; now apply IH.
Qed.

Lemma keepNumeric_no_plus s :
  allChars (fun c => negb (Ascii.eqb c "+")) (keepNumeric s) = true.
Proof.
  induction s as [|c r IH]; simpl; [reflexivity|].
  destruct (isDigit c || Ascii.eqb c "." || Ascii.eqb c "-")%bool eqn:K; [|exact IH].
  simpl. rewrite IH, andb_true_r.
  destruct (Ascii.eqb_spec c "+") as [->|]; [discriminate K|reflexivity].
Qed.

Lemma dropCommas_allChars p s :
  allChars p s = true -> allChars p (dropCommas s) = true.
Proof.
  induction s as [|c r IH]; simpl; [reflexivity|].
  intros H. apply andb_true_iff in H. destruct H as [D R].
  destruct (Ascii.eqb c ","); simpl; [|rewrite D]; now apply IH.
Qed.

Lemma fraction_no_digit t :
  allChars notDigit t = true ->
  match t with
  | String "." r => fst (takeDigits r)
  | _ => EmptyString
  end = EmptyString.
Proof.
  destruct t as [|c r]; [reflexivity|]. simpl.
  intros H. apply andb_true_iff in H. destruct H as [_ R].
  destruct (Ascii.eqb_spec c ".") as [->|N].
  - now rewrite (takeDigits_no_digit r R).
  - destruct c as [[] [] [] [] [] [] [] []]; try reflexivity. contradiction.
Qed.

Lemma parseFloat_no_digit s : allChars notDigit s = true -> parseFloat s = None.
Proof.
  intros H. rewrite parseFloat_unfold.
  assert (R : allChars notDigit (snd (signSplit s)) = true).
  { destruct s as [|c r]; [reflexivity|]. unfold signSplit.
    simpl in H. apply andb_true_iff in H. destruct H as [D R].
    destruct (Ascii.eqb c "-"); [exact R|].
    destruct (Ascii.eqb c "+"); [exact R|]. simpl. now rewrite D, R. }
  destruct (signSplit s) as [negative s1]. simpl in R.
  rewrite (takeDigits_no_digit s1 R). now rewrite (fraction_no_digit s1 R).
Qed.

Lemma signSplit_no_sign s :
  allChars notMinus s = true ->
  allChars (fun c => negb (Ascii.eqb c "+")) s = true ->
  signSplit s = (false, s).
Proof.
  destruct s as [|c r]; [reflexivity|]. simpl. unfold notMinus.
  intros M P. apply andb_true_iff in M, P. destruct M as [M _], P as [P _].
  apply negb_true_iff in M, P. now rewrite M, P.
Qed.

Lemma parsed_value (intPart fracPart : string) (x q : Q) :
  match intPart, fracPart with
  | EmptyString, EmptyString => None
  | _, _ => Some x
  end = Some q -> q = x.
Proof. destruct intPart, fracPart; try discriminate; congruence. Qed.

Lemma parseFloat_nonneg s q :
  allChars notMinus s = true ->
  allChars (fun c => negb (Ascii.eqb c "+")) s = true ->
  parseFloat s = Some q -> 0 <= q.
Proof.
  intros M P. rewrite parseFloat_unfold, (signSplit_no_sign s M P).
  destruct (takeDigits s) as [intPart s2] eqn:T.
  assert (I : (0 <= digitsValue intPart)%Z).
  { unfold digitsValue. apply digitsValueFrom_nonneg; [|apply Z.le_refl].
    pose proof (takeDigits_digits s) as D. now rewrite T in D. }
  set (fracPart := match s2 with String "." r => fst (takeDigits r) | _ => "" end).
  assert (F : (0 <= digitsValue fracPart)%Z).
  { unfold digitsValue. apply digitsValueFrom_nonneg; [|apply Z.le_refl].
    subst fracPart. destruct s2 as [|c r]; [reflexivity|].
    destruct (Ascii.eqb_spec c ".") as [->|N]; [apply takeDigits_digits|].
    destruct c as [[] [] [] [] [] [] [] []]; try reflexivity. contradiction. }
  assert (V : 0 <= inject_Z (digitsValue intPart)
                 + inject_Z (digitsValue fracPart)
                   / inject_Z (pow10 (String.length fracPart))).
  { assert (0 <= inject_Z (digitsValue intPart)) by (now rewrite <- (Zle_Qle 0)).
    assert (0 <= inject_Z (digitsValue fracPart)
                 / inject_Z (pow10 (String.length fracPart))).
    { apply Qle_shift_div_l.
      - change 0 with (inject_Z 0). rewrite <- Zlt_Qlt. apply pow10_pos.
      - rewrite Qmult_0_l. now rewrite <- (Zle_Qle 0). }
    lra. }
  assert (R : forall v, 0 <= v -> 0 <= Qred v)
    by (intros v Hv; now rewrite Qred_correct).
  cbv beta iota zeta. intros H. apply parsed_value in H. rewrite H.
  apply R. exact V.
Qed.

(** X16. [parseNumber] never raises and returns null or a number.  It
    returns null on every falsy input (the number 0 included, as well as
    NaN, the empty text and false) and on every text without a digit; and
    from a text without a minus sign it never returns a negative number. *)
Theorem parseNumber_properties :
  (forall text, exists v, parseNumber text = Ok v /\
     (v = JNull \/ exists q, v = JNum q)) /\
  (forall text, toBoolean text = false -> parseNumber text = Ok JNull) /\
  (forall s, allChars notDigit s = true -> parseNumber (JStr s) = Ok JNull) /\
  (forall s q, allChars notMinus s = true ->
     parseNumber (JStr s) = Ok (JNum q) -> 0 <= q).
Proof.
  split; [exact parseNumber_returns|]. split; [|split].
  - intros text F. unfold parseNumber. now rewrite F.
  - intros s H. unfold parseNumber.
    destruct (toBoolean (JStr s)); [|reflexivity]. simpl.
    rewrite parseFloat_no_digit; [reflexivity|].
    now apply dropCommas_allChars, keepNumeric_no_digit.
  - intros s q H. unfold parseNumber.
    destruct (toBoolean (JStr s)); [|discriminate]. simpl.
    destruct (parseFloat (dropCommas (keepNumeric s))) as [n|] eqn:Pf; [|discriminate].
    intros [= <-]. apply (parseFloat_nonneg _ _) in Pf; [exact Pf| |].
    + now apply dropCommas_allChars, keepNumeric_no_minus.
    + apply dropCommas_allChars, keepNumeric_no_plus.
Qed.

Lemma parseNumber_properties_witness :
  parseNumber (JStr "n/a") = Ok JNull /\
  (forall q, parseNumber (JStr "18.5 kmpl") = Ok (JNum q) -> 0 <= q).
Proof.
  split.
  - apply (proj1 (proj2 (proj2 parseNumber_properties))). reflexivity.
  - intros q. apply (proj2 (proj2 (proj2 parseNumber_properties))). reflexivity.
Defined.

(* ================================================================= *)
(** ** The AI overlay *)

Lemma enhanceFields_design spec n :
  let e := enhanceFields spec n in
  displacement e = displacement spec /\ cylinders e = cylinders spec /\
  power e = power spec /\ torque e = torque spec /\
  transmissionType e = transmissionType spec /\ gears e = gears spec /\
  kerbWeight e = kerbWeight spec /\ groundClearance e = groundClearance spec /\
  bodyType e = bodyType spec /\ ncapStars e = ncapStars spec /\
  airbags e = airbags spec /\ esc e = esc spec /\ isofix e = isofix spec /\
  price e = price spec /\ batteryCapacity e = batteryCapacity spec.
Proof.
  unfold enhanceFields. cbv zeta.
  destruct (negb (truthyStr (fuelType spec)) && truthyStr (Gemini.fuelType n))%bool;
    match goal with
    | |- context [isFalsyNum (mileage ?s)] => destruct (isFalsyNum (mileage s))
    end;
    destruct (Gemini.realWorld n) as [rw|]; try (repeat split; reflexivity);
    destruct (truthy (Gemini.kmpl rw)); try (repeat split; reflexivity);
    destruct (truthy (Gemini.kmkg rw)); try (repeat split; reflexivity);
    destruct (truthy (Gemini.kmPerKWh rw)); try (repeat split; reflexivity);
    match goal with
    | |- context [truthy (batteryCapacity ?s)] => destruct (truthy (batteryCapacity s))
    end; repeat split; reflexivity.
Qed.

(** X17. [enhanceSpecWithGemini] returns the local record as it is when the
    answer or its normalized part is missing, and never touches what was
    found locally: a non-empty local fuel type is kept, and with a truthy
    local mileage neither mileage nor range changes.  Whatever the answer,
    the design, safety and price fields are kept, so the efficiency
    penalty and the safety score of the record do not change. *)
Theorem enhancement_keeps_local_data localSpec :
  (enhanceSpecWithGemini localSpec None = localSpec /\
   enhanceSpecWithGemini localSpec (Some (Gemini.mkData None)) = localSpec) /\
  (forall data,
     let e := fields (enhanceSpecWithGemini localSpec data) in
     (truthyStr (fuelType (fields localSpec)) = true ->
        fuelType e = fuelType (fields localSpec)) /\
     (isFalsyNum (mileage (fields localSpec)) = false ->
        mileage e = mileage (fields localSpec) /\
        range e = range (fields localSpec)) /\
     calculateEfficiencyPenalty e = calculateEfficiencyPenalty (fields localSpec) /\
     calculateSafetyScore e = calculateSafetyScore (fields localSpec)).
Proof.
  split; [split; reflexivity|].
  intros [[[n|]]|]; cbv zeta; simpl; try (repeat split; reflexivity).
  split; [|split; [|split]].
  - intros T. unfold enhanceFields. cbv zeta. rewrite T. simpl.
    destruct (isFalsyNum (mileage (fields localSpec))); [|reflexivity].
    destruct (Gemini.realWorld n) as [rw|]; [|reflexivity].
    destruct (truthy (Gemini.kmpl rw)); [reflexivity|].
    destruct (truthy (Gemini.kmkg rw)); [reflexivity|].
    destruct (truthy (Gemini.kmPerKWh rw)); [|reflexivity].
    destruct (truthy (batteryCapacity (fields localSpec))); reflexivity.
  - intros M. unfold enhanceFields. cbv zeta.
    destruct (negb (truthyStr (fuelType (fields localSpec)))
              && truthyStr (Gemini.fuelType n))%bool;
      cbn [mileage withFuelType]; rewrite M; split; reflexivity.
  - destruct (enhanceFields_design (fields localSpec) n)
      as (E1 & E2 & E3 & E4 & E5 & E6 & E7 & E8 & E9 & _).
    unfold calculateEfficiencyPenalty, totalPenalty.
    now rewrite E1, E2, E3, E5, E6, E7, E8, E9.
  - destruct (enhanceFields_design (fields localSpec) n)
      as (_ & _ & _ & _ & _ & _ & _ & _ & _ & E10 & E11 & E12 & E13 & _).
    unfold calculateSafetyScore, featureSafetyScore.
    now rewrite E10, E11, E12, E13.
Qed.

Lemma enhancement_keeps_local_data_witness :
  fuelType (fields (enhanceSpecWithGemini (mkEnhanced swiftSpec None None None)
     (Some (Gemini.mkData (Some (Gemini.mkNormalized (Some "diesel") None None None None))))))
  = Some "petrol".
Proof.
  apply (proj2 (enhancement_keeps_local_data (mkEnhanced swiftSpec None None None))).
  reflexivity.
Defined.

Lemma isFalsyNum_true x : isFalsyNum x = true -> truthy x = None.
Proof. unfold isFalsyNum. destruct (truthy x); [discriminate|reflexivity]. Qed.

Lemma truthy_of_truthy x v : truthy x = Some v -> truthy (Some v) = Some v.
Proof. intros H. apply truthy_Some in H. now apply truthy_nonzero. Qed.

(** X18. When the local record has no mileage, the efficiency figure of
    the answer is fed back through the same corrections as a brochure
    figure.  A km/l figure (or, failing that, a km/kg one) becomes the
    mileage, so the real-world efficiency of the enhanced record is that
    figure times 0.8 (0.85 for a hybrid).  Failing both, a km/kWh figure is
    turned into a range with the local battery capacity, so that for an
    electric record the real-world efficiency is 0.75 times the figure. *)
Theorem enhancement_feeds_efficiency localSpec n rw :
  Gemini.realWorld n = Some rw ->
  isFalsyNum (mileage (fields localSpec)) = true ->
  let e := fields (enhanceSpecWithGemini localSpec
                     (Some (Gemini.mkData (Some n)))) in
  (forall k, truthy (Gemini.kmpl rw) = Some k ->
     mileage e = Some k /\
     calculateRealWorldEfficiency e = k * mileageFactor (fuelType e)) /\
  (forall k, truthy (Gemini.kmpl rw) = None -> truthy (Gemini.kmkg rw) = Some k ->
     mileage e = Some k /\
     calculateRealWorldEfficiency e = k * mileageFactor (fuelType e)) /\
  (forall k b, truthy (Gemini.kmpl rw) = None -> truthy (Gemini.kmkg rw) = None ->
     truthy (Gemini.kmPerKWh rw) = Some k ->
     truthy (batteryCapacity (fields localSpec)) = Some b ->
     range e = Some (k * b) /\
     (fuelType e = Some "electric" ->
      calculateRealWorldEfficiency e == k * 0.75)).
Proof.
  intros RW M. cbv zeta. cbn [enhanceSpecWithGemini Gemini.normalized fields].
  unfold enhanceFields. cbv zeta.
  set (s1 := if (negb (truthyStr (fuelType (fields localSpec)))
                 && truthyStr (Gemini.fuelType n))%bool
             then withFuelType (fields localSpec) (Gemini.fuelType n)
             else fields localSpec).
  assert (M1 : mileage s1 = mileage (fields localSpec))
    by (subst s1; destruct (negb _ && _)%bool; reflexivity).
  assert (B1 : batteryCapacity s1 = batteryCapacity (fields localSpec))
    by (subst s1; destruct (negb _ && _)%bool; reflexivity).
  rewrite M1, M, RW, B1.
  split; [|split].
  - intros k K. rewrite K. split; [reflexivity|].
    apply realWorldEfficiency_measured. cbn [mileage withMileage].
    now apply (truthy_of_truthy (Gemini.kmpl rw)).
  - intros k K1 K2. rewrite K1, K2. split; [reflexivity|].
    apply realWorldEfficiency_measured. cbn [mileage withMileage].
    now apply (truthy_of_truthy (Gemini.kmkg rw)).
  - intros k b K1 K2 K3 Kb. rewrite K1, K2, K3, Kb. split; [reflexivity|].
    cbn [fuelType withRange]. intros F.
    unfold calculateRealWorldEfficiency.
    cbn [mileage range batteryCapacity fuelType withRange].
    rewrite M1, (isFalsyNum_true _ M), F, B1, Kb.
    apply truthy_Some in K3, Kb. destruct K3 as [_ Nk], Kb as [_ Nb].
    rewrite truthy_nonzero.
    + simpl. unfold REAL_WORLD_FACTORS_ev. field. exact Nb.
    + intros Z. apply Qmult_integral in Z. tauto.
Qed.

Lemma enhancement_feeds_efficiency_witness :
  calculateRealWorldEfficiency
    (fields (enhanceSpecWithGemini (mkEnhanced (evSpec 0 40) None None None)
       (Some (Gemini.mkData (Some (Gemini.mkNormalized None
          (Some (Gemini.mkRealWorld None None (Some 7))) None None None))))))
  == 7 * 0.75.
Proof.
  apply (proj2 (proj2 (enhancement_feeds_efficiency
           (mkEnhanced (evSpec 0 40) None None None)
           (Gemini.mkNormalized None
              (Some (Gemini.mkRealWorld None None (Some 7))) None None None)
           (Gemini.mkRealWorld None None (Some 7))
           eq_refl eq_refl)) 7 40); reflexivity.
Defined.

(* ================================================================= *)
(** ** The weights of the settings form *)




(* ================================================================= *)
(** ** Printing and parsing an integer *)














Lemma zeros_length t : String.length (zeros t) = t.
Proof. unfold zeros. induction t as [|t IH]; simpl; [reflexivity|now rewrite IH]. Qed.


















(* ================================================================= *)
(** ** mapCarWaleSpec *)

Lemma setIfMissing_spec spec field v :
  (forall k, toBoolean (spec k) = true -> setIfMissing spec field v k = spec k) /\
  (forall k, k <> field -> setIfMissing spec field v k = spec k) /\
  (forall k, setIfMissing spec field v k <> spec k ->
     k = field /\ setIfMissing spec field v k = v /\ toBoolean v = true).
Proof.
  unfold setIfMissing.
  destruct (toBoolean (spec field)) eqn:F; simpl.
  - split; [reflexivity|]. split; [reflexivity|].
    intros k N. now contradiction N.
  - destruct (toBoolean v) eqn:V; simpl.
    + split; [|split].
      * intros k T. apply setField_other. intros ->. congruence.
      * intros k N. now apply setField_other.
      * intros k N. destruct (string_dec k field) as [->|D].
        -- now rewrite setField_same.
        -- rewrite setField_other in N by exact D. now contradiction N.
    + split; [reflexivity|]. split; [reflexivity|].
      intros k N. now contradiction N.
Qed.

Lemma flagIfMissing_spec spec field :
  (forall k, toBoolean (spec k) = true -> flagIfMissing spec field k = spec k) /\
  (forall k, k <> field -> flagIfMissing spec field k = spec k) /\
  (forall k, flagIfMissing spec field k <> spec k ->
     k = field /\ flagIfMissing spec field k = JBool true).
Proof.
  unfold flagIfMissing. destruct (toBoolean (spec field)) eqn:F; simpl.
  - split; [reflexivity|]. split; [reflexivity|].
    intros k N. now contradiction N.
  - split; [|split].
    + intros k T. apply setField_other. intros ->. congruence.
    + intros k N. now apply setField_other.
    + intros k N. destruct (string_dec k field) as [->|D].
      * now rewrite setField_same.
      * rewrite setField_other in N by exact D. now contradiction N.
Qed.

Ltac carwale_field :=
  match goal with
  | |- context [setIfMissing ?s ?f ?v] =>
      destruct (setIfMissing_spec s f v) as (K & O & W);
      eexists; split; [reflexivity|]; split; [exact K|]; split; [|split];
      [intros k Nk; apply O; intros ->; apply Nk; simpl; tauto
      |intros k Nk; destruct (W k Nk) as (-> & _ & T); split;
       [simpl; tauto|now rewrite (proj1 (proj2 (W _ Nk)))]
      |intros k k' Nk Nk'; destruct (W k Nk) as (-> & _);
       destruct (W k' Nk') as (-> & _); reflexivity]
  | |- context [flagIfMissing ?s ?f] =>
      destruct (flagIfMissing_spec s f) as (K & O & W);
      eexists; split; [reflexivity|]; split; [exact K|]; split; [|split];
      [intros k Nk; apply O; intros ->; apply Nk; simpl; tauto
      |intros k Nk; destruct (W k Nk) as (-> & E); split;
       [simpl; tauto|now rewrite E]
      |intros k k' Nk Nk'; destruct (W k Nk) as (-> & _);
       destruct (W k' Nk') as (-> & _); reflexivity]
  end.

(** X21. [mapCarWaleSpec] never raises and never overwrites what was
    already found: a property of the record that is truthy keeps its
    value.  It changes at most one property, one of mileage, range,
    batteryCapacity, power, kerbWeight, airbags, esc and isofix, and only
    ever writes a truthy value. *)
Theorem mapCarWaleSpec_keeps_found_values spec term value :
  exists spec', mapCarWaleSpec spec term value = Ok spec' /\
    (forall k, toBoolean (spec k) = true -> spec' k = spec k) /\
    (forall k, ~ In k carWaleFields -> spec' k = spec k) /\
    (forall k, spec' k <> spec k ->
       In k carWaleFields /\ toBoolean (spec' k) = true) /\
    (forall k k', spec' k <> spec k -> spec' k' <> spec k' -> k = k').
Proof.
  unfold mapCarWaleSpec.
  destruct (parseNumber_returns (JStr value)) as (numValue & -> & Hv).
  cbn [bind].
  assert (Same : exists spec', Ok spec = Ok spec' /\
    (forall k, toBoolean (spec k) = true -> spec' k = spec k) /\
    (forall k, ~ In k carWaleFields -> spec' k = spec k) /\
    (forall k, spec' k <> spec k ->
       In k carWaleFields /\ toBoolean (spec' k) = true) /\
    (forall k k', spec' k <> spec k -> spec' k' <> spec k' -> k = k')).
  { exists spec. split; [reflexivity|]. split; [reflexivity|].
    split; [reflexivity|]. split; [intros k N|intros k k' N _]; now contradiction N. }
  destruct (includes term "mileage" || includes term "fuel efficiency"
            || includes term "arai")%bool; [carwale_field|].
  destruct (includes term "range" || includes term "driving range")%bool;
    [carwale_field|].
  destruct (includes term "battery"
            && (includes term "capacity" || includes term "kwh"))%bool;
    [carwale_field|].
  destruct (includes term "power" && (includes term "max" || includes term "peak"))%bool.
  { destruct (toBoolean (spec "power")) eqn:P; [exact Same|].
    destruct Hv as [->|(q & ->)]; [exact Same|].
    cbn [negb andb toBoolean]. destruct (isTruthy q) eqn:T; [|exact Same].
    set (v := if includes (toLowerCase value) "hp"
              then scaleNumber (JNum q) 0.746 else JNum q).
    assert (Tv : toBoolean v = true).
    { subst v. destruct (includes (toLowerCase value) "hp"); [|exact T].
      cbn [scaleNumber toBoolean]. apply isTruthy_true in T.
      destruct (isTruthy (q * 0.746)) eqn:T'; [reflexivity|].
      apply isTruthy_false in T'. exfalso. apply T. lra. }
    assert (Only : forall k, setField spec "power" v k <> spec k -> k = "power").
    { intros k Nk. destruct (string_dec k "power") as [D|D]; [exact D|].
      rewrite setField_other in Nk by exact D. now contradiction Nk. }
    eexists. split; [reflexivity|]. split; [|split; [|split]].
    - intros k Tk. apply setField_other. intros ->. congruence.
    - intros k Nk. apply setField_other. intros ->. apply Nk. simpl. tauto.
    - intros k Nk. rewrite (Only k Nk).
      split; [simpl; tauto|]. now rewrite setField_same.
    - intros k k' Nk Nk'. now rewrite (Only k Nk), (Only k' Nk'). }
  destruct (includes term "weight" && (includes term "kerb" || includes term "curb"))%bool;
    [carwale_field|].
  destruct (includes term "airbag"); [carwale_field|].
  destruct (includes term "esc" || includes term "esp" || includes term "stability")%bool;
    [carwale_field|].
  destruct (includes term "isofix"); [carwale_field|].
  exact Same.
Qed.

Lemma mapCarWaleSpec_keeps_found_values_witness :
  exists spec', mapCarWaleSpec extractedBag "arai mileage" "21.4 kmpl" = Ok spec' /\
    spec' "mileage" = extractedBag "mileage".
Proof.
  destruct (mapCarWaleSpec_keeps_found_values extractedBag "arai mileage" "21.4 kmpl")
    as (spec' & E & K & _).
  exists spec'. split; [exact E|]. apply K. reflexivity.
Defined.

(* ================================================================= *)
(** ** isCarSpecPage *)

Lemma prefix_iff k : forall t, String.prefix k t = true <-> exists b, t = k ++ b.
Proof.
  induction k as [|c k IH]; intros t.
  - split; [intros _; exists t; reflexivity|intros _; now destruct t].
  - destruct t as [|c' t]; simpl.
    + split; [discriminate|intros (b & E); discriminate].
    + destruct (ascii_dec c c') as [->|N].
      * rewrite IH. split; intros (b & E); exists b; congruence.
      * split; [discriminate|]. intros (b & E). congruence.
Qed.

Lemma includes_iff t : forall k,
  includes t k = true <-> exists a b, t = a ++ k ++ b.
Proof.
  induction t as [|c t IH]; intros k; rewrite includes_unfold.
  - destruct (String.prefix k "") eqn:P.
    + split; [intros _|reflexivity]. apply prefix_iff in P. destruct P as (b & E).
      exists "", b. exact E.
    + split; [discriminate|]. intros (a & b & E).
      destruct a; [|discriminate].
      assert (String.prefix k "" = true) by (apply prefix_iff; now exists b).
      congruence.
  - destruct (String.prefix k (String c t)) eqn:P.
    + split; [intros _|reflexivity]. apply prefix_iff in P. destruct P as (b & E).
      exists "", b. exact E.
    + rewrite IH. split.
      * intros (a & b & ->). exists (String c a), b. reflexivity.
      * intros (a & b & E). destruct a as [|c' a].
        -- assert (String.prefix k (String c t) = true)
             by (apply prefix_iff; now exists b).
           congruence.
        -- exists a, b. simpl in E. congruence.
Qed.

Lemma append_assoc a b c : (a ++ b) ++ c = a ++ b ++ c.
Proof. induction a as [|x a IH]; simpl; [reflexivity|now rewrite IH]. Qed.

Lemma includes_trans t k k' :
  includes t k = true -> includes k k' = true -> includes t k' = true.
Proof.
  intros H1 H2. apply includes_iff in H1, H2.
  destruct H1 as (a & b & ->), H2 as (c & d & ->).
  replace (a ++ (c ++ k' ++ d) ++ b) with ((a ++ c) ++ k' ++ (d ++ b))
    by (now rewrite !append_assoc).
  apply includes_app.
Qed.

(** X22. [isCarSpecPage] holds exactly when the title or the text has one
    of the ten keywords and the address contains "car" or "auto": its tests
    for "cardekho" and "carwale" add nothing.  It ignores case and tests
    substrings, so that every page whose address has "car" in it and whose
    text has a keyword in it is taken for a specification page; a page
    with empty title and text never is. *)
Theorem isCarSpecPage_properties :
  (forall href title textContent,
     isCarSpecPage href title textContent =
     (existsb (fun keyword =>
                 (includes (toLowerCase title) keyword
                  || includes (toLowerCase textContent) keyword)%bool) carKeywords
      && (includes (toLowerCase href) "car"
          || includes (toLowerCase href) "auto"))%bool) /\
  (forall a b title c k d, In (toLowerCase k) carKeywords ->
     isCarSpecPage (a ++ "car" ++ b) title (c ++ k ++ d) = true) /\
  (forall href, isCarSpecPage href "" "" = false).
Proof.
  assert (Site : forall url,
    (includes url "cardekho" || includes url "carwale"
     || includes url "car" || includes url "auto")%bool
    = (includes url "car" || includes url "auto")%bool).
  { intros url.
    destruct (includes url "car") eqn:C; [now rewrite !orb_true_r|].
    destruct (includes url "cardekho") eqn:C1.
    { rewrite (includes_trans url "cardekho" "car" C1 eq_refl) in C. discriminate. }
    destruct (includes url "carwale") eqn:C2.
    { rewrite (includes_trans url "carwale" "car" C2 eq_refl) in C. discriminate. }
    reflexivity. }
  split; [|split].
  - intros href title textContent. unfold isCarSpecPage. cbv zeta.
    now rewrite Site.
  - intros a b title c k d I. unfold isCarSpecPage. cbv zeta.
    rewrite Site. apply andb_true_iff. split.
    + apply existsb_exists. exists (toLowerCase k). split; [exact I|].
      rewrite !toLowerCase_app, includes_app. apply orb_true_r.
    + rewrite !toLowerCase_app. change (toLowerCase "car") with "car".
      now rewrite includes_app.
  - intros href. unfold isCarSpecPage. cbv zeta. reflexivity.
Qed.

Lemma isCarSpecPage_properties_witness :
  isCarSpecPage "https://example.com/carpets" "Home" "Best price on rugs" = true.
Proof.
  apply (proj1 (proj2 isCarSpecPage_properties)
           "https://example.com/" "pets" "Home" "Best " "price" " on rugs").
  simpl. tauto.
Defined.
